(** * Excel Files Combiner: a shallow embedding of [excel_combiner.py]

    The development follows the source file top to bottom:

    - Python strings and the small string operations the script relies on
      ([s[:n]], [str.endswith], ASCII case folding);
    - [sanitize_sheet_name];
    - the interface of the libraries the script calls into (pandas' cell
      conversion and regular-expression search, [os.path.splitext]), kept
      as a type class [Host], with one executable instance for a fragment;
    - data frames, [apply_filters], [process_excel_file],
      [get_column_options] and the top-level script, written with the
      Streamlit session state passed explicitly;
    - the properties of the specification, proved about these definitions.

    Strings are sequences of 8-bit characters; this is Python's [str]
    restricted to ASCII text. *)

From Stdlib Require Import String Ascii List ZArith Bool Arith Lia.
From Stdlib Require Import DecimalString Permutation Sorted.
From Stdlib Require OrderedTypeEx.
Import ListNotations.

Local Open Scope string_scope.
Local Open Scope list_scope.

(* ================================================================== *)
(** * Python strings *)

Module PyStr.

(** [s[:n]] *)
Fixpoint slice_to (n : nat) (s : string) : string :=
  match n, s with
  | S n', String c s' => String c (slice_to n' s')
  | _, _ => EmptyString
  end.

(** [s[n:]] *)
Fixpoint slice_from (n : nat) (s : string) : string :=
  match n, s with
  | S n', String _ s' => slice_from n' s'
  | _, _ => s
  end.

Fixpoint map_chars (f : ascii -> ascii) (s : string) : string :=
  match s with
  | EmptyString => EmptyString
  | String c s' => String (f c) (map_chars f s')
  end.

Fixpoint all_chars (p : ascii -> bool) (s : string) : bool :=
  match s with
  | EmptyString => true
  | String c s' => p c && all_chars p s'
  end.

(** [s.endswith(suffix)] *)
Definition endswith (s suffix : string) : bool :=
  (String.length suffix <=? String.length s)%nat
  && String.eqb (slice_from (String.length s - String.length suffix) s) suffix.

(** [s.rfind(c)] for a one-character needle: the index of the last
    occurrence, or -1. *)
Fixpoint rfind_from (c : ascii) (s : string) (i acc : Z) : Z :=
  match s with
  | EmptyString => acc
  | String a s' => rfind_from c s' (i + 1)%Z (if Ascii.eqb a c then i else acc)
  end.

Definition rfind (c : ascii) (s : string) : Z := rfind_from c s 0%Z (-1)%Z.

(** ASCII case folding, as [re.IGNORECASE] does on ASCII letters. *)
Definition lower_char (c : ascii) : ascii :=
  let n := nat_of_ascii c in
  if (65 <=? n)%nat && (n <=? 90)%nat then ascii_of_nat (n + 32) else c.

Definition lower (s : string) : string := map_chars lower_char s.

(** [s.startswith(prefix)] *)
Fixpoint startswith (s prefix : string) {struct prefix} : bool :=
  match prefix, s with
  | EmptyString, _ => true
  | String a prefix', String b s' => Ascii.eqb a b && startswith s' prefix'
  | String _ _, EmptyString => false
  end.

(** [needle in s] *)
Fixpoint contains (needle s : string) : bool :=
  startswith s needle
  || match s with
     | EmptyString => false
     | String _ s' => contains needle s'
     end.

(** [str(n)] for an integer. *)
Definition of_Z (z : Z) : string := NilEmpty.string_of_int (Z.to_int z).
Definition of_nat (n : nat) : string := of_Z (Z.of_nat n).

End PyStr.

(* ================================================================== *)
(** * Name sanitizer (lines 34-41) *)

(** The character class [r'[/\\*?:[\]]']: slash, backslash, star, question
    mark, colon and the two square brackets. *)
Definition invalid_chars : list ascii :=
  ["/"; "\"; "*"; "?"; ":"; "["; "]"]%char.

Definition is_invalid (c : ascii) : bool :=
  existsb (Ascii.eqb c) invalid_chars.

(** [re.sub(invalid_chars, '_', sheet_name)]: every match is one character
    and is replaced by one underscore. *)
Definition re_sub_invalid (sheet_name : string) : string :=
  PyStr.map_chars (fun c => if is_invalid c then "_"%char else c) sheet_name.

Definition sanitize_sheet_name (sheet_name : string) : string :=
  let sanitized := re_sub_invalid sheet_name in
  let sanitized := PyStr.slice_to 31 sanitized in
  sanitized.

(* ================================================================== *)
(** * Exceptions and the error monad *)

(** The script tells [zipfile.BadZipFile] from every other [Exception];
    both carry the text that [str(e)] returns. *)
Inductive exn : Type :=
| BadZipFile (msg : string)
| PyError (msg : string).

Definition str_exn (e : exn) : string :=
  match e with
  | BadZipFile m => m
  | PyError m => m
  end.

(** A computation that returns a value or raises. *)
Definition raising (A : Type) : Type := (exn + A)%type.

Definition bind {A B : Type} (m : raising A) (k : A -> raising B) : raising B :=
  match m with
  | inl e => inl e
  | inr a => k a
  end.

Notation "x <- m ;; k" := (bind m (fun x => k))
  (at level 61, m at next level, right associativity).

(* ================================================================== *)
(** * The libraries the script calls

    pandas, [re] and [os.path] are not part of the repository.  What the
    script needs of them is an interface:

    - [cell] is the type of the scalars a data frame holds, and
      [astype_str] is the element-wise result of [Series.astype(str)]:
      [Some s] when the value becomes the text [s], [None] when it is still
      a missing value afterwards (which text, if any, a missing value
      becomes depends on the pandas version);
    - [re_compile value] is [re.compile(value, re.IGNORECASE)], which
      [Series.str.contains(value, case=False)] performs because its
      [regex] argument defaults to [True]; it raises on a malformed
      pattern.  [re_search r s] is [r.search(s) is not None];
    - [splitext_root p] is [os.path.splitext(p)[0]], which depends on the
      path separators of the platform. *)
Class Host : Type := {
  cell : Type;
  astype_str : cell -> option string;
  regex : Type;
  re_compile : string -> raising regex;
  re_search : regex -> string -> bool;
  splitext_root : string -> string
}.

(* ================================================================== *)
(** * Data frames and the filter engine *)

Section Combiner.

Context {H : Host}.

(** A data frame: column labels and rows, each row holding one cell per
    column, in column order. *)
Record DataFrame : Type := {
  columns : list string;
  rows : list (list cell)
}.

(** Every row has one cell per column. *)
Definition rectangular (df : DataFrame) : Prop :=
  Forall (fun r => length r = length (columns df)) (rows df).

(** [df.empty]: one of the two axes has length 0. *)
Definition empty (df : DataFrame) : bool :=
  match columns df, rows df with
  | _ :: _, _ :: _ => false
  | _, _ => true
  end.

(** [df.head(n)] *)
Definition head (n : nat) (df : DataFrame) : DataFrame :=
  {| columns := columns df; rows := firstn n (rows df) |}.

(** [column in df.columns] *)
Definition in_columns (column : string) (df : DataFrame) : bool :=
  existsb (String.eqb column) (columns df).

(** The positions at which a label occurs among the columns. *)
Fixpoint positions_from (i : nat) (column : string) (labels : list string)
  : list nat :=
  match labels with
  | [] => []
  | l :: labels' =>
      if String.eqb column l
      then i :: positions_from (S i) column labels'
      else positions_from (S i) column labels'
  end.

Definition positions (column : string) (df : DataFrame) : list nat :=
  positions_from 0 column (columns df).

(** The text of the cell of row [r] at position [i] after
    [astype(str)]; [None] is a missing value. *)
Definition text_at (i : nat) (r : list cell) : option string :=
  match nth_error r i with
  | Some v => astype_str v
  | None => None
  end.

(** [df[column].astype(str).str]: the texts of one column.  A label that
    occurs once selects a Series.  A label that occurs several times
    selects a DataFrame, which has no [.str] accessor; a label that does
    not occur is a [KeyError]. *)
Definition str_accessor (df : DataFrame) (column : string)
  : raising (list (option string)) :=
  match positions column df with
  | [i] => inr (map (text_at i) (rows df))
  | [] => inl (PyError ("'" ++ column ++ "'"))
  | _ => inl (PyError "'DataFrame' object has no attribute 'str'")
  end.

(** [.str.contains(value, case=False, na=False)]: the pattern is compiled
    as a regular expression, once, and searched for in every text;
    missing values give [False]. *)
Definition str_contains (texts : list (option string)) (value : string)
  : raising (list bool) :=
  r <- re_compile value ;;
  inr (map (fun t => match t with
                     | Some s => re_search r s
                     | None => false
                     end) texts).

Definition current_mask (df : DataFrame) (column value : string)
  : raising (list bool) :=
  texts <- str_accessor df column ;;
  str_contains texts value.

(** [mask & current_mask] and [mask | current_mask] *)
Fixpoint mask_zip (op : bool -> bool -> bool) (m1 m2 : list bool)
  : list bool :=
  match m1, m2 with
  | b1 :: m1', b2 :: m2' => op b1 b2 :: mask_zip op m1' m2'
  | _, _ => []
  end.

(** [df[mask]]: the rows at which the mask holds, in order. *)
Fixpoint select_rows (mask : list bool) (rs : list (list cell))
  : list (list cell) :=
  match mask, rs with
  | b :: mask', r :: rs' =>
      if b then r :: select_rows mask' rs' else select_rows mask' rs'
  | _, _ => []
  end.

Definition getitem_mask (df : DataFrame) (mask : list bool) : DataFrame :=
  {| columns := columns df; rows := select_rows mask (rows df) |}.

(** The [for] loop of lines 81-87, with [mask] threaded through. *)
Fixpoint filter_loop (df : DataFrame) (filter_conditions : list (string * string))
    (logic : string) (mask : option (list bool))
  : raising (option (list bool)) :=
  match filter_conditions with
  | [] => inr mask
  | (column, value) :: rest =>
      if in_columns column df then
        cur <- current_mask df column value ;;
        filter_loop df rest logic
          (Some (match mask with
                 | None => cur
                 | Some m =>
                     if String.eqb logic "AND"
                     then mask_zip andb m cur
                     else mask_zip orb m cur
                 end))
      else filter_loop df rest logic mask
  end.

(** The body of the [try] block of [apply_filters]. *)
Definition apply_filters_try (df : DataFrame)
    (filter_conditions : list (string * string)) (logic : string)
  : raising DataFrame :=
  mask <- filter_loop df filter_conditions logic None ;;
  inr (match mask with
       | Some m => getitem_mask df m
       | None => df
       end).

(* ---------------------------------------------------------------- *)
(** ** Session state

    [st.session_state], extended with what the script prints on the page
    and with the calls it makes to the archive and spreadsheet readers. *)

Inductive ui_event : Type :=
| UiInfo (msg : string)
| UiWarning (msg : string)
| UiError (msg : string)
| UiWrite (msg : string)
| UiSubheader (msg : string)
| UiDataframe (df : DataFrame).

Inductive io_event : Type :=
| IoZipFile
| IoOpen (file_name : string)
| IoReadExcel (file_name : string).

Definition NamedTable : Type := (string * DataFrame)%type.

Record SessionState : Type := {
  processed_sheets : nat;
  error_sheets : list string;
  column_options : list string;
  preview_data : option (list NamedTable);
  screen : list ui_event;
  io : list io_event
}.

(** Lines 25-29. *)
Definition initial_state : SessionState :=
  {| processed_sheets := 0; error_sheets := []; column_options := [];
     preview_data := None; screen := []; io := [] |}.

(** [st.session_state.error_sheets.append(msg)] *)
Definition log_error (msg : string) (st : SessionState) : SessionState :=
  {| processed_sheets := processed_sheets st;
     error_sheets := error_sheets st ++ [msg];
     column_options := column_options st;
     preview_data := preview_data st;
     screen := screen st;
     io := io st |}.

(** [st.session_state.processed_sheets += 1] *)
Definition count_sheet (st : SessionState) : SessionState :=
  {| processed_sheets := S (processed_sheets st);
     error_sheets := error_sheets st;
     column_options := column_options st;
     preview_data := preview_data st;
     screen := screen st;
     io := io st |}.

Definition show (ev : ui_event) (st : SessionState) : SessionState :=
  {| processed_sheets := processed_sheets st;
     error_sheets := error_sheets st;
     column_options := column_options st;
     preview_data := preview_data st;
     screen := screen st ++ [ev];
     io := io st |}.

Definition perform (ev : io_event) (st : SessionState) : SessionState :=
  {| processed_sheets := processed_sheets st;
     error_sheets := error_sheets st;
     column_options := column_options st;
     preview_data := preview_data st;
     screen := screen st;
     io := io st ++ [ev] |}.

Definition set_column_options (opts : list string) (st : SessionState)
  : SessionState :=
  {| processed_sheets := processed_sheets st;
     error_sheets := error_sheets st;
     column_options := opts;
     preview_data := preview_data st;
     screen := screen st;
     io := io st |}.

Definition set_preview_data (p : option (list NamedTable)) (st : SessionState)
  : SessionState :=
  {| processed_sheets := processed_sheets st;
     error_sheets := error_sheets st;
     column_options := column_options st;
     preview_data := p;
     screen := screen st;
     io := io st |}.

(** Lines 137-139. *)
Definition reset_run (st : SessionState) : SessionState :=
  {| processed_sheets := 0;
     error_sheets := [];
     column_options := column_options st;
     preview_data := None;
     screen := screen st;
     io := io st |}.

(* ---------------------------------------------------------------- *)
(** ** [apply_filters] (lines 77-91) *)

Definition apply_filters (df : DataFrame)
    (filter_conditions : list (string * string)) (logic : string)
    (st : SessionState) : DataFrame * SessionState :=
  match apply_filters_try df filter_conditions logic with
  | inr filtered => (filtered, st)
  | inl e => (df, log_error ("Error applying filters: " ++ str_exn e) st)
  end.

(* ---------------------------------------------------------------- *)
(** ** [process_excel_file] (lines 93-131) *)

(** What [pd.read_excel(..., sheet_name=None)] yields: the sheets of the
    workbook, in workbook order. *)
Definition Sheets : Type := list (string * DataFrame).

(** The bytes of one spreadsheet file are used for nothing but
    [pd.read_excel]; they are represented by its outcome. *)
Definition FileContent : Type := raising Sheets.

(** Line 107. *)
Definition new_sheet_name (sheet_name file_name : string) : string :=
  let sanitized_sheet_name := sanitize_sheet_name sheet_name in
  let base_filename := splitext_root file_name in
  let sanitized_filename := sanitize_sheet_name base_filename in
  PyStr.slice_to 31 (sanitized_sheet_name ++ "_" ++ sanitized_filename).

(** Lines 110-111. *)
Definition rename_notice (sheet_name file_name : string) (st : SessionState)
  : SessionState :=
  let sanitized_sheet_name := sanitize_sheet_name sheet_name in
  let base_filename := splitext_root file_name in
  let sanitized_filename := sanitize_sheet_name base_filename in
  if negb (String.eqb sanitized_sheet_name sheet_name)
     || negb (String.eqb sanitized_filename base_filename)
  then show (UiWarning ("Sheet '" ++ sheet_name ++ "' from '" ++ file_name
               ++ "' renamed to '" ++ new_sheet_name sheet_name file_name
               ++ "' due to invalid characters (e.g., /, -, *, ?, :, [, ]) replaced with _")) st
  else st.

(** The local lists [processed] and [preview_data], and the session. *)
Definition Progress : Type :=
  (list NamedTable * list NamedTable * SessionState)%type.

(** One iteration of the loop of lines 102-127. *)
Definition process_sheet (file_name : string)
    (filter_conditions : list (string * string)) (logic : string)
    (preview : bool) (acc : Progress) (sheet : string * DataFrame)
  : Progress :=
  let '(processed, preview_data, st) := acc in
  let '(sheet_name, df) := sheet in
  let new_name := new_sheet_name sheet_name file_name in
  let st := rename_notice sheet_name file_name st in
  if empty df then
    (processed, preview_data,
     log_error (sheet_name ++ " in " ++ file_name ++ ": Sheet is empty") st)
  else
    let '(df_filtered, st) := apply_filters df filter_conditions logic st in
    if empty df_filtered then
      (processed, preview_data,
       log_error (sheet_name ++ " in " ++ file_name
                    ++ ": No rows remain after filtering") st)
    else
      (processed ++ [(new_name, df_filtered)],
       (if preview then preview_data ++ [(new_name, head 5 df_filtered)]
        else preview_data),
       show (UiWrite ("Processed: " ++ sheet_name ++ " from " ++ file_name
               ++ " as " ++ new_name ++ " with "
               ++ PyStr.of_nat (length (rows df_filtered)) ++ " rows"))
            (count_sheet st)).

Definition process_excel_file (file_content : FileContent)
    (file_name : string) (filter_conditions : list (string * string))
    (logic : string) (preview : bool) (st : SessionState)
  : list NamedTable * list NamedTable * SessionState :=
  let st := perform (IoReadExcel file_name) st in
  match file_content with
  | inl e =>
      ([], [], log_error ("Error processing " ++ file_name ++ ": " ++ str_exn e) st)
  | inr [] =>
      ([], [], log_error (file_name ++ ": No sheets found") st)
  | inr sheets =>
      fold_left (process_sheet file_name filter_conditions logic preview)
                sheets ([], [], st)
  end.

(* ---------------------------------------------------------------- *)
(** ** The archive and [get_column_options] (lines 43-75) *)

(** An open [zipfile.ZipFile]: [z.namelist()], and for each name the
    outcome of [z.open(name)] followed by reading the member. *)
Record ZipFile : Type := {
  namelist : list string;
  zopen : string -> raising FileContent
}.

(** The set [column_options], kept as the sorted list of its elements. *)
Fixpoint set_add (x : string) (s : list string) : list string :=
  match s with
  | [] => [x]
  | y :: s' =>
      if String.eqb x y then s
      else if String.ltb x y then x :: s
      else y :: set_add x s'
  end.

Definition set_update (s : list string) (xs : list string) : list string :=
  fold_left (fun acc x => set_add x acc) xs s.

Definition reading_error (file_name : string) (e : exn) : string :=
  match e with
  | BadZipFile _ =>
      "Error reading " ++ file_name ++ ": Corrupted or invalid Excel file"
  | PyError m => "Error reading " ++ file_name ++ ": " ++ m
  end.

(** Lines 58-62. *)
Definition catalog_sheet (file_name : string)
    (acc : list string * SessionState) (sheet : string * DataFrame)
  : list string * SessionState :=
  let '(column_options, st) := acc in
  let '(sheet_name, df) := sheet in
  if empty df then
    (column_options,
     log_error (sheet_name ++ " in " ++ file_name ++ ": Sheet is empty") st)
  else (set_update column_options (columns df), st).

(** Lines 48-68. *)
Definition catalog_file (z : ZipFile) (acc : list string * SessionState)
    (file_name : string) : list string * SessionState :=
  let '(column_options, st) := acc in
  if negb (PyStr.endswith file_name ".xlsx") then
    (column_options,
     log_error ("Skipped " ++ file_name ++ ": Not an Excel file (.xlsx)") st)
  else
    let st := perform (IoOpen file_name) st in
    match zopen z file_name with
    | inl e => (column_options, log_error (reading_error file_name e) st)
    | inr content =>
        let st := perform (IoReadExcel file_name) st in
        match content with
        | inl e => (column_options, log_error (reading_error file_name e) st)
        | inr [] =>
            (column_options, log_error (file_name ++ ": No sheets found") st)
        | inr sheets =>
            let '(column_options, st) :=
              fold_left (catalog_sheet file_name) sheets (column_options, st) in
            match column_options with
            | [] =>
                (column_options,
                 log_error (file_name ++ ": No valid columns found in any sheet") st)
            | _ => (column_options, st)
            end
        end
    end.

Definition get_column_options (excel_files : list string)
    (zip_buffer : raising ZipFile) (st : SessionState)
  : list string * SessionState :=
  let st := perform IoZipFile st in
  match zip_buffer with
  | inl (BadZipFile _) =>
      ([], log_error "Error: Uploaded file is not a valid ZIP archive" st)
  | inl (PyError m) =>
      ([], log_error ("Error processing ZIP file: " ++ m) st)
  | inr z => fold_left (catalog_file z) excel_files ([], st)
  end.

(* ---------------------------------------------------------------- *)
(** ** The script (lines 133-272) *)

(** The uploaded file: the number of bytes of [zip_file.getvalue()] and
    the outcome of [zipfile.ZipFile] on them. *)
Record UploadedFile : Type := {
  upload_size : Z;
  upload_zip : raising ZipFile
}.

(** The widgets of one run: the filter slots (column, value), the logic
    selector and the two buttons. *)
Record Widgets : Type := {
  filter_slots : list (string * string);
  filter_logic : string;
  preview_button : bool;
  combine_button : bool
}.

(** Lines 142-143.  [len(...) / (1024 * 1024) > 100] divides by a power of
    two, so the floating-point quotient exceeds 100 exactly when the
    byte count exceeds [100 * 1024 * 1024]. *)
Definition too_large (zip_file : UploadedFile) : bool :=
  (upload_size zip_file >? 100 * (1024 * 1024))%Z.

(** Lines 163-180: a slot is a condition when a column is chosen and the
    value is not empty. *)
Definition conditions_of (slots : list (string * string))
  : list (string * string) :=
  filter (fun '(column, value) =>
            negb (String.eqb column "None") && negb (String.eqb value ""))
         slots.

(** Lines 215-216: the name under which the result is offered. *)
Definition output_file_name (output_filename : string) : string :=
  if PyStr.endswith output_filename ".xlsx" then output_filename
  else output_filename ++ ".xlsx".

(** The handlers of lines 267-270. *)
Definition run_failed (e : exn) (st : SessionState) : SessionState :=
  match e with
  | BadZipFile _ =>
      show (UiError "Error: Uploaded file is not a valid ZIP archive.") st
  | PyError m => show (UiError ("Error processing ZIP file: " ++ m)) st
  end.

(** Lines 188-198: the loop of the preview button. *)
Fixpoint preview_loop (z : ZipFile) (excel_files : list string)
    (filter_conditions : list (string * string)) (logic : string)
    (st : SessionState) : raising unit * SessionState :=
  match excel_files with
  | [] => (inr tt, st)
  | file_name :: rest =>
      let st := perform (IoOpen file_name) st in
      match zopen z file_name with
      | inl e => (inl e, st)
      | inr file_content =>
          let '(_, preview, st) :=
            process_excel_file file_content file_name filter_conditions
                               logic true st in
          let shown := match preview_data st with
                       | Some l => l
                       | None => []
                       end in
          preview_loop z rest filter_conditions logic
                       (set_preview_data (Some (shown ++ preview)) st)
      end
  end.

(** Lines 220-231: the loop of the combine button, with [all_sheets]
    threaded through. *)
Fixpoint combine_loop (z : ZipFile) (excel_files : list string)
    (filter_conditions : list (string * string)) (logic : string)
    (all_sheets : list NamedTable) (st : SessionState)
  : raising (list NamedTable) * SessionState :=
  match excel_files with
  | [] => (inr all_sheets, st)
  | file_name :: rest =>
      let st := perform (IoOpen file_name) st in
      match zopen z file_name with
      | inl e => (inl e, st)
      | inr file_content =>
          let '(sheets, _, st) :=
            process_excel_file file_content file_name filter_conditions
                               logic false st in
          combine_loop z rest filter_conditions logic (all_sheets ++ sheets) st
      end
  end.

(** Lines 201-205. *)
Definition display_preview (st : SessionState) : SessionState :=
  match preview_data st with
  | None | Some [] => st
  | Some l =>
      fold_left (fun st '(sheet_name, df_preview) =>
                   show (UiDataframe df_preview)
                        (show (UiWrite ("**" ++ sheet_name ++ "**")) st))
                l (show (UiSubheader "Data Preview (First 5 Rows per Sheet)") st)
  end.

(** The script from line 133 up to the point where [all_sheets] is
    complete.  The result is the session together with the list handed
    to the spreadsheet writer, if the combine button got that far; the
    writer itself (lines 233-265) is not part of this model. *)
Definition run (zip_file : option UploadedFile) (w : Widgets)
    (st : SessionState) : SessionState * option (list NamedTable) :=
  match zip_file with
  | None =>
      (show (UiInfo "Please upload a ZIP file containing Excel files to proceed.") st,
       None)
  | Some up =>
      let st := reset_run st in
      if too_large up then
        (show (UiError "ZIP file is too large (exceeds 100MB). Please upload a smaller file.") st,
         None)
      else
        let st := perform IoZipFile st in
        match upload_zip up with
        | inl e => (run_failed e st, None)
        | inr z =>
            match filter (fun f => PyStr.endswith f ".xlsx") (namelist z) with
            | [] =>
                (show (UiError "No Excel (.xlsx) files found in the ZIP archive.") st,
                 None)
            | excel_files =>
                let '(opts, st) :=
                  get_column_options excel_files (upload_zip up) st in
                let st := set_column_options opts st in
                let st :=
                  match opts with
                  | [] => show (UiWarning "No valid columns found in any Excel files. You can still combine sheets without filtering.") st
                  | _ => st
                  end in
                let st := show (UiSubheader "Filter Conditions") st in
                let filter_conditions := conditions_of (filter_slots w) in
                let logic := filter_logic w in
                let '(previewed, st) :=
                  if preview_button w then
                    preview_loop z excel_files filter_conditions logic
                                 (set_preview_data (Some []) st)
                  else (inr tt, st) in
                match previewed with
                | inl e => (run_failed e st, None)
                | inr _ =>
                    let st := display_preview st in
                    let st := show (UiSubheader "Output Settings") st in
                    if combine_button w then
                      match combine_loop z excel_files filter_conditions
                                         logic [] st with
                      | (inl e, st) => (run_failed e st, None)
                      | (inr all_sheets, st) => (st, Some all_sheets)
                      end
                    else (st, None)
                end
            end
        end
  end.

(* ---------------------------------------------------------------- *)
(** ** Vocabulary of the statements *)

(** The conditions whose column is a column of the frame, in order. *)
Definition active (df : DataFrame) (conds : list (string * string))
  : list (string * string) :=
  filter (fun c => in_columns (fst c) df) conds.

(** The exception that evaluating one condition raises, if any. *)
Definition condition_error (df : DataFrame) (c : string * string)
  : option exn :=
  match positions (fst c) df with
  | [_] => match re_compile (snd c) with
           | inl e => Some e
           | inr _ => None
           end
  | [] => Some (PyError ("'" ++ fst c ++ "'"))
  | _ => Some (PyError "'DataFrame' object has no attribute 'str'")
  end.

(** The exception of the first active condition that raises one. *)
Fixpoint first_failure (df : DataFrame) (conds : list (string * string))
  : option exn :=
  match conds with
  | [] => None
  | c :: rest =>
      if in_columns (fst c) df then
        match condition_error df c with
        | Some e => Some e
        | None => first_failure df rest
        end
      else first_failure df rest
  end.

(** A text holds a match of the pattern read as a regular expression;
    a missing text and a pattern that does not compile give [false]. *)
Definition regex_test (value : string) (text : option string) : bool :=
  match re_compile value, text with
  | inr r, Some s => re_search r s
  | _, _ => false
  end.

(** A text holds the pattern as a substring, letter case ignored; a
    missing text gives [false]. *)
Definition substring_test (value : string) (text : option string) : bool :=
  match text with
  | Some s => PyStr.contains (PyStr.lower value) (PyStr.lower s)
  | None => false
  end.

(** One condition on one row, for a given test on texts. *)
Definition condition_holds (test : string -> option string -> bool)
    (df : DataFrame) (c : string * string) (r : list cell) : bool :=
  match positions (fst c) df with
  | [i] => test (snd c) (text_at i r)
  | _ => false
  end.

(** The combined mask on one row: every active condition under AND, some
    active condition otherwise; a row passes when no condition is
    active. *)
Definition row_passes (test : string -> option string -> bool)
    (df : DataFrame) (conds : list (string * string)) (logic : string)
    (r : list cell) : bool :=
  match active df conds with
  | [] => true
  | acts =>
      if String.eqb logic "AND"
      then forallb (fun c => condition_holds test df c r) acts
      else existsb (fun c => condition_holds test df c r) acts
  end.

(** The combination of the masks of a list of conditions, on one row,
    starting from [b], as the loop accumulates it. *)
Definition fold_tests (logic : string)
    (test : string * string -> list cell -> bool)
    (acts : list (string * string)) (b : bool) (r : list cell) : bool :=
  fold_left (fun acc c => if String.eqb logic "AND"
                          then acc && test c r else acc || test c r)
            acts b.

Definition keep_rows (p : list cell -> bool) (df : DataFrame) : DataFrame :=
  {| columns := columns df; rows := filter p (rows df) |}.

(** The filter engine as the specification words it: the rows whose
    combined mask of case-insensitive substring tests holds. *)
Definition substring_filter (df : DataFrame)
    (conds : list (string * string)) (logic : string) : DataFrame :=
  keep_rows (row_passes substring_test df conds logic) df.

(** The rows of [a] are among the rows of [b], and are not more. *)
Definition within (a b : DataFrame) : Prop :=
  incl (rows a) (rows b) /\ length (rows a) <= length (rows b).

(** The table [apply_filters] returns, whatever the session. *)
Definition filtered (df : DataFrame) (conds : list (string * string))
    (logic : string) : DataFrame :=
  fst (apply_filters df conds logic initial_state).

(** The specification's property that AND narrows and OR widens. *)
Definition and_narrows_or_widens (df : DataFrame) (c1 c2 : string * string)
    (logic : string) : Prop :=
  within (filtered df [c1; c2] "AND") (filtered df [c1] logic)
  /\ within (filtered df [c1; c2] "AND") (filtered df [c2] logic)
  /\ within (filtered df [c1] logic) (filtered df [c1; c2] "OR")
  /\ within (filtered df [c2] logic) (filtered df [c1; c2] "OR").

(** The elements of a list on which [f] is defined, in order. *)
Fixpoint keep_some {A B : Type} (f : A -> option B) (l : list A) : list B :=
  match l with
  | [] => []
  | x :: l' =>
      match f x with
      | Some y => y :: keep_some f l'
      | None => keep_some f l'
      end
  end.

(** The sheets a file name gives access to; none when the member or the
    workbook cannot be read. *)
Definition sheets_of (z : ZipFile) (file_name : string) : Sheets :=
  match zopen z file_name with
  | inr (inr sheets) => sheets
  | _ => []
  end.

(** The sheets of one workbook, each with the name of its file. *)
Definition sheets_of_file (file_name : string) (sheets : Sheets)
  : list (string * string * DataFrame) :=
  map (fun '(sheet_name, df) => (file_name, sheet_name, df)) sheets.

(** Every sheet of every file: files in the order given, and the sheets
    of one file in workbook order. *)
Definition sheets_in_order (z : ZipFile) (excel_files : list string)
  : list (string * string * DataFrame) :=
  flat_map (fun file_name => sheets_of_file file_name (sheets_of z file_name))
           excel_files.

(** The output entry of one sheet, if it has one. *)
Definition output_entry (conds : list (string * string)) (logic : string)
    (x : string * string * DataFrame) : option NamedTable :=
  let '(file_name, sheet_name, df) := x in
  if empty df then None
  else if empty (filtered df conds logic) then None
  else Some (PyStr.slice_to 31
               (sanitize_sheet_name sheet_name ++ "_"
                  ++ sanitize_sheet_name (splitext_root file_name)),
             filtered df conds logic).

(** The session after one iteration of the sheet loop. *)
Definition sheet_session (file_name : string)
    (conds : list (string * string)) (logic : string)
    (st : SessionState) (sheet : string * DataFrame) : SessionState :=
  snd (process_sheet file_name conds logic false ([], [], st) sheet).

(** The session once a workbook has been read. *)
Definition file_session (file_name : string)
    (conds : list (string * string)) (logic : string)
    (content : FileContent) (st : SessionState) : SessionState :=
  let st := perform (IoReadExcel file_name) st in
  match content with
  | inl e =>
      log_error ("Error processing " ++ file_name ++ ": " ++ str_exn e) st
  | inr [] => log_error (file_name ++ ": No sheets found") st
  | inr sheets => fold_left (sheet_session file_name conds logic) sheets st
  end.

(** The output entries of one workbook. *)
Definition file_entries (file_name : string)
    (conds : list (string * string)) (logic : string)
    (content : FileContent) : list NamedTable :=
  match content with
  | inl _ => []
  | inr sheets =>
      keep_some (output_entry conds logic) (sheets_of_file file_name sheets)
  end.

(** A name the sanitizer has nothing to do on: at most 31 characters,
    none of them invalid. *)
Definition valid_name (name : string) : bool :=
  (String.length name <=? 31)%nat
  && PyStr.all_chars (fun c => negb (is_invalid c)) name.

(** The exception of the first member that cannot be opened and read. *)
Fixpoint first_unreadable (z : ZipFile) (excel_files : list string)
  : option exn :=
  match excel_files with
  | [] => None
  | file_name :: rest =>
      match zopen z file_name with
      | inl e => Some e
      | inr _ => first_unreadable z rest
      end
  end.


(** A call to the archive or spreadsheet reader that concerns the archive
    itself or one of the given members. *)
Definition reads_only (excel_files : list string) (ev : io_event) : Prop :=
  match ev with
  | IoZipFile => True
  | IoOpen file_name | IoReadExcel file_name => In file_name excel_files
  end.

(** The session [st'] continues [st]: the error log and the reader calls
    of [st] are kept and come first, the new reader calls all satisfy [P],
    and the count of processed sheets has not gone down. *)
Definition continues (P : io_event -> Prop) (st st' : SessionState) : Prop :=
  (exists more, error_sheets st' = error_sheets st ++ more)
  /\ (exists evs, io st' = io st ++ evs /\ Forall P evs)
  /\ processed_sheets st <= processed_sheets st'.

(** The number of sheets a workbook gives, none when it cannot be read. *)
Definition sheet_count (content : FileContent) : nat :=
  match content with
  | inl _ => 0
  | inr sheets => length sheets
  end.


(** The first five rows of every table of a list, under the same names. *)
Definition preview_of (processed : list NamedTable) : list NamedTable :=
  map (fun '(name, df) => (name, head 5 df)) processed.

End Combiner.

(* ================================================================== *)
(** * An executable host for ASCII text

    Cells are texts and integers.  Patterns are those made of ordinary
    characters, the dot, and backslash-escaped special characters; on these
    [compile] and [search] follow Python's [re] with [re.IGNORECASE], and
    a pattern that ends in a lone backslash is rejected as [re] rejects it.
    Any other pattern is outside the fragment: [compile] rejects it, and no
    statement of this file applies the instance to one. *)

Module AsciiHost.

Inductive value : Type :=
| Text (s : string)
| Int (z : Z).

Definition to_text (v : value) : option string :=
  match v with
  | Text s => Some s
  | Int z => Some (PyStr.of_Z z)
  end.

Inductive atom : Type :=
| Lit (c : ascii)
| AnyChar.

Definition special_chars : list ascii :=
  ["."; "^"; "$"; "*"; "+"; "?"; "{"; "}"; "["; "]"; "\"; "|"; "("; ")"]%char.

Definition is_special (c : ascii) : bool :=
  existsb (Ascii.eqb c) special_chars.

(** An ASCII character with no meaning of its own in a pattern. *)
Definition ordinary (c : ascii) : bool :=
  (nat_of_ascii c <? 128)%nat && negb (is_special c).

Fixpoint compile_from (i : nat) (pattern : string) : raising (list atom) :=
  match pattern with
  | EmptyString => inr []
  | String c rest =>
      if Ascii.eqb c "\" then
        match rest with
        | EmptyString =>
            inl (PyError ("bad escape (end of pattern) at position "
                            ++ PyStr.of_nat i))
        | String d rest' =>
            if is_special d then
              r <- compile_from (S (S i)) rest' ;; inr (Lit d :: r)
            else inl (PyError "pattern outside the modelled fragment")
        end
      else if Ascii.eqb c "." then
        r <- compile_from (S i) rest ;; inr (AnyChar :: r)
      else if ordinary c then
        r <- compile_from (S i) rest ;; inr (Lit (PyStr.lower_char c) :: r)
      else inl (PyError "pattern outside the modelled fragment")
  end.

Definition compile (pattern : string) : raising (list atom) :=
  compile_from 0 pattern.

(** The regular expression of a pattern of ordinary characters: its
    characters, case folded. *)
Fixpoint literal (pattern : string) : list atom :=
  match pattern with
  | EmptyString => []
  | String c rest => Lit (PyStr.lower_char c) :: literal rest
  end.

(** The dot matches every character but the newline. *)
Definition atom_matches (a : atom) (c : ascii) : bool :=
  match a with
  | Lit l => Ascii.eqb l (PyStr.lower_char c)
  | AnyChar => negb (Ascii.eqb c "010")
  end.

Fixpoint match_here (r : list atom) (s : string) : bool :=
  match r, s with
  | [], _ => true
  | a :: r', String c s' => atom_matches a c && match_here r' s'
  | _ :: _, EmptyString => false
  end.

Fixpoint search (r : list atom) (s : string) : bool :=
  match_here r s
  || match s with
     | EmptyString => false
     | String _ s' => search r s'
     end.

(** [posixpath.splitext(p)[0]]: the extension starts at the last dot of
    the last path component, leading dots of the component set aside. *)
Definition posix_splitext_root (p : string) : string :=
  let sepIndex := PyStr.rfind "/" p in
  let dotIndex := PyStr.rfind "." p in
  if (dotIndex >? sepIndex)%Z then
    let component_head :=
      PyStr.slice_to (Z.to_nat (dotIndex - (sepIndex + 1)))
                     (PyStr.slice_from (Z.to_nat (sepIndex + 1)) p) in
    if PyStr.all_chars (Ascii.eqb ".") component_head then p
    else PyStr.slice_to (Z.to_nat dotIndex) p
  else p.

Definition host : Host :=
  {| cell := value;
     astype_str := to_text;
     regex := list atom;
     re_compile := compile;
     re_search := search;
     splitext_root := posix_splitext_root |}.

Definition frame (labels : list string) (rs : list (list value))
  : @DataFrame host :=
  @Build_DataFrame host labels rs.

(** The table of the specification's scenario: sheet [Q1] of
    [Sales.xlsx]. *)
Definition sales : @DataFrame host :=
  frame ["Region"; "Amt"] [[Text "East"; Int 10]; [Text "West"; Int 5]].

Definition east_only : @DataFrame host :=
  frame ["Region"; "Amt"] [[Text "East"; Int 10]].

(** A frame in which one label names two columns. *)
Definition twice : @DataFrame host :=
  frame ["Region"; "Region"]
        [[Text "East"; Text "North"]; [Text "West"; Text "South"]].

(** An archive with two workbooks; the second has an empty sheet. *)
Definition archive : @ZipFile host :=
  @Build_ZipFile host
    ["Sales.xlsx"; "notes.txt"; "Stock.xlsx"]
    (fun name =>
       if String.eqb name "Sales.xlsx" then inr (inr [("Q1", sales)])
       else if String.eqb name "Stock.xlsx" then
         inr (inr [("Empty", frame ["Region"] []);
                   ("Q1", sales); ("Q2", east_only)])
       else inl (PyError ("There is no item named '" ++ name
                            ++ "' in the archive"))).

Definition upload (size : Z) : @UploadedFile host :=
  @Build_UploadedFile host size (inr archive).

Definition widgets : Widgets :=
  {| filter_slots := [("Region", "east"); ("None", "")];
     filter_logic := "AND";
     preview_button := false;
     combine_button := true |}.

End AsciiHost.

(* ================================================================== *)
(** * Facts about strings *)

Module PyStrFacts.
Import PyStr.

Lemma length_slice_to (n : nat) (s : string) :
  String.length (slice_to n s) = Nat.min n (String.length s).
Proof.
  revert s; induction n as [|n IH]; intros [|c s]; simpl; auto.
Qed.

Lemma length_map_chars (f : ascii -> ascii) (s : string) :
  String.length (map_chars f s) = String.length s.
Proof. induction s; simpl; congruence. Qed.

Lemma slice_to_slice_to (n : nat) (s : string) :
  slice_to n (slice_to n s) = slice_to n s.
Proof.
  revert s; induction n as [|n IH]; intros [|c s]; simpl; auto.
  now rewrite IH.
Qed.

Lemma map_chars_slice_to (f : ascii -> ascii) (n : nat) (s : string) :
  map_chars f (slice_to n s) = slice_to n (map_chars f s).
Proof.
  revert s; induction n as [|n IH]; intros [|c s]; simpl; auto.
  now rewrite IH.
Qed.

Lemma map_chars_idem (f : ascii -> ascii) (s : string) :
  (forall c, f (f c) = f c) -> map_chars f (map_chars f s) = map_chars f s.
Proof.
  intros Hf; induction s as [|c s IH]; simpl; auto.
  now rewrite Hf, IH.
Qed.

Lemma get_slice_to (n i : nat) (s : string) :
  String.get i (slice_to n s) = if (i <? n)%nat then String.get i s else None.
Proof.
  revert i s; induction n as [|n IH]; intros i s.
  - simpl. now destruct i.
  - destruct s as [|c s]; simpl.
    + now destruct (i <? S n)%nat.
    + destruct i as [|i]; [reflexivity|]. apply IH.
Qed.

Lemma get_map_chars (f : ascii -> ascii) (i : nat) (s : string) :
  String.get i (map_chars f s) = option_map f (String.get i s).
Proof.
  revert i; induction s as [|c s IH]; intros i; simpl.
  - reflexivity.
  - destruct i; simpl; auto.
Qed.

Lemma all_chars_get (p : ascii -> bool) (s : string) :
  all_chars p s = true <->
  (forall i c, String.get i s = Some c -> p c = true).
Proof.
  induction s as [|a s IH]; simpl.
  - split; [intros _ i c Hc; discriminate | reflexivity].
  - rewrite andb_true_iff, IH. split.
    + intros [Ha Hs] [|i] c Hc.
      * now inversion Hc; subst.
      * eauto.
    + intros Hall. split.
      * apply (Hall 0). reflexivity.
      * intros i c Hc. apply (Hall (S i)). exact Hc.
Qed.

End PyStrFacts.

(* ================================================================== *)
(** * The name sanitizer *)

Lemma underscore_is_valid : is_invalid "_" = false.
Proof. reflexivity. Qed.

Lemma replacement_is_valid (c : ascii) :
  is_invalid (if is_invalid c then "_"%char else c) = false.
Proof. destruct (is_invalid c) eqn:E; [reflexivity | exact E]. Qed.

Lemma is_invalid_spec (c : ascii) :
  is_invalid c = true <-> In c invalid_chars.
Proof.
  unfold is_invalid. rewrite existsb_exists. split.
  - intros [x [Hx E]]. apply Ascii.eqb_eq in E. now subst.
  - intros Hc. exists c. split; [exact Hc | apply Ascii.eqb_refl].
Qed.

Lemma re_sub_invalid_idem (s : string) :
  re_sub_invalid (re_sub_invalid s) = re_sub_invalid s.
Proof.
  apply PyStrFacts.map_chars_idem. intros c.
  now rewrite replacement_is_valid.
Qed.

(** C4.  [sanitize_sheet_name] is a total function; its result is the
    input with every one of the characters / \ * ? : [ ] replaced by an
    underscore, cut to its first 31 characters: the result has at most 31
    characters (the smaller of 31 and the input length), none of them is
    one of the seven characters, and the character at each position below
    31 is the underscore where the input has one of the seven and the
    input's character otherwise. *)
Theorem sanitize_sheet_name_safe (sheet_name : string) :
  sanitize_sheet_name sheet_name = PyStr.slice_to 31 (re_sub_invalid sheet_name)
  /\ String.length (sanitize_sheet_name sheet_name)
     = Nat.min 31 (String.length sheet_name)
  /\ String.length (sanitize_sheet_name sheet_name) <= 31
  /\ (forall i c, String.get i (sanitize_sheet_name sheet_name) = Some c ->
                  ~ In c invalid_chars)
  /\ (forall i c, i < 31 -> String.get i sheet_name = Some c ->
                  String.get i (sanitize_sheet_name sheet_name)
                  = Some (if is_invalid c then "_"%char else c))
  /\ (forall i, 31 <= i ->
                String.get i (sanitize_sheet_name sheet_name) = None).
Proof.
  unfold sanitize_sheet_name, re_sub_invalid.
  repeat split.
  - now rewrite PyStrFacts.length_slice_to, PyStrFacts.length_map_chars.
  - rewrite PyStrFacts.length_slice_to. apply Nat.le_min_l.
  - intros i c Hget Hin.
    rewrite PyStrFacts.get_slice_to, PyStrFacts.get_map_chars in Hget.
    destruct (i <? 31)%nat; [|discriminate].
    destruct (String.get i sheet_name) as [a|]; [|discriminate].
    simpl in Hget. inversion Hget; subst c.
    apply is_invalid_spec in Hin.
    now rewrite replacement_is_valid in Hin.
  - intros i c Hi Hget.
    rewrite PyStrFacts.get_slice_to, PyStrFacts.get_map_chars, Hget.
    apply Nat.ltb_lt in Hi. now rewrite Hi.
  - intros i Hi.
    rewrite PyStrFacts.get_slice_to.
    destruct (i <? 31)%nat eqn:E; [|reflexivity].
    apply Nat.ltb_lt in E. lia.
Qed.

Lemma sanitize_sheet_name_safe_witness :
  String.get 2 "Q1/2024:[draft]*" = Some "/"%char
  /\ String.get 2 (sanitize_sheet_name "Q1/2024:[draft]*") = Some "_"%char
  /\ sanitize_sheet_name "Q1/2024:[draft]*" = "Q1_2024__draft__".
Proof.
  split; [reflexivity|]. split; [|reflexivity].
  destruct (sanitize_sheet_name_safe "Q1/2024:[draft]*")
    as [_ [_ [_ [_ [Hat _]]]]].
  apply (Hat 2 "/"%char); [lia | reflexivity].
Defined.

(** C5.  [sanitize_sheet_name] is idempotent. *)
Theorem sanitize_sheet_name_idempotent (x : string) :
  sanitize_sheet_name (sanitize_sheet_name x) = sanitize_sheet_name x.
Proof.
  unfold sanitize_sheet_name, re_sub_invalid.
  rewrite PyStrFacts.map_chars_slice_to.
  rewrite PyStrFacts.map_chars_idem
    by (intros c; now rewrite replacement_is_valid).
  apply PyStrFacts.slice_to_slice_to.
Qed.

(* ================================================================== *)
(** * The filter engine *)

Section FilterFacts.

Context {H : Host}.

Implicit Types (df : DataFrame) (conds : list (string * string)).
Implicit Types (logic column value : string) (st : SessionState).

Lemma mask_zip_map (op : bool -> bool -> bool) (p q : list cell -> bool)
    (rs : list (list cell)) :
  mask_zip op (map p rs) (map q rs) = map (fun r => op (p r) (q r)) rs.
Proof. induction rs as [|r rs IH]; simpl; [reflexivity | now rewrite IH]. Qed.

Lemma select_rows_map (p : list cell -> bool) (rs : list (list cell)) :
  select_rows (map p rs) rs = filter p rs.
Proof.
  induction rs as [|r rs IH]; simpl; [reflexivity|].
  rewrite IH. reflexivity.
Qed.

Lemma filter_all {A : Type} (p : A -> bool) (l : list A) :
  (forall x, p x = true) -> filter p l = l.
Proof.
  intros Hp; induction l as [|x l IH]; simpl; [reflexivity|].
  now rewrite Hp, IH.
Qed.

Lemma keep_rows_all (p : list cell -> bool) df :
  (forall r, p r = true) -> keep_rows p df = df.
Proof.
  intros Hp. destruct df as [cs rs]. unfold keep_rows; simpl.
  now rewrite filter_all.
Qed.

(** One condition on an existing column: either it raises, or its mask
    is the regular-expression test of each row. *)
Lemma current_mask_spec df column value :
  current_mask df column value =
  match condition_error df (column, value) with
  | Some e => inl e
  | None => inr (map (condition_holds regex_test df (column, value)) (rows df))
  end.
Proof.
  unfold current_mask, str_accessor, condition_error, condition_holds; simpl.
  destruct (positions column df) as [|i [|j l]]; simpl; try reflexivity.
  unfold str_contains, regex_test.
  destruct (re_compile value) as [e|r]; simpl; [reflexivity|].
  now rewrite map_map.
Qed.

Lemma fold_tests_forallb test acts b r :
  fold_tests "AND" test acts b r = b && forallb (fun c => test c r) acts.
Proof.
  unfold fold_tests; simpl. revert b.
  induction acts as [|c acts IH]; intros b; simpl.
  - now rewrite andb_true_r.
  - rewrite IH. now rewrite andb_assoc.
Qed.

Lemma fold_tests_existsb logic test acts b r :
  String.eqb logic "AND" = false ->
  fold_tests logic test acts b r = b || existsb (fun c => test c r) acts.
Proof.
  intros E. unfold fold_tests. rewrite E. revert b.
  induction acts as [|c acts IH]; intros b; simpl.
  - now rewrite orb_false_r.
  - rewrite IH. now rewrite orb_assoc.
Qed.

Lemma filter_loop_raises df conds logic e :
  first_failure df conds = Some e ->
  forall mask, filter_loop df conds logic mask = inl e.
Proof.
  induction conds as [|[column value] rest IH]; simpl; [discriminate|].
  intros Hf mask.
  destruct (in_columns column df); [|now apply IH].
  rewrite current_mask_spec.
  destruct (condition_error df (column, value)) as [e'|]; simpl.
  - now inversion Hf.
  - now apply IH.
Qed.

Lemma filter_loop_from_mask df conds logic :
  first_failure df conds = None ->
  forall p : list cell -> bool,
    filter_loop df conds logic (Some (map p (rows df))) =
    inr (Some (map (fun r => fold_tests logic (condition_holds regex_test df)
                                        (active df conds) (p r) r)
                   (rows df))).
Proof.
  induction conds as [|[column value] rest IH]; simpl; intros Hf p.
  - reflexivity.
  - unfold active in *; simpl.
    destruct (in_columns column df); [|now apply IH].
    rewrite current_mask_spec.
    destruct (condition_error df (column, value)); [discriminate|]; simpl.
    destruct (String.eqb logic "AND") eqn:E;
      rewrite mask_zip_map, (IH Hf); unfold fold_tests; simpl;
      now rewrite E.
Qed.

Lemma filter_loop_from_none df conds logic :
  first_failure df conds = None ->
  filter_loop df conds logic None =
  inr (match active df conds with
       | [] => None
       | c :: acts =>
           Some (map (fun r => fold_tests logic (condition_holds regex_test df)
                                          acts (condition_holds regex_test df c r) r)
                     (rows df))
       end).
Proof.
  induction conds as [|[column value] rest IH]; simpl; intros Hf.
  - reflexivity.
  - unfold active in *; simpl.
    destruct (in_columns column df); [|now apply IH].
    rewrite current_mask_spec.
    destruct (condition_error df (column, value)); [discriminate|]; simpl.
    now rewrite filter_loop_from_mask.
Qed.

Lemma combined_mask_row_passes df conds logic c acts r :
  active df conds = c :: acts ->
  fold_tests logic (condition_holds regex_test df) acts
             (condition_holds regex_test df c r) r
  = row_passes regex_test df conds logic r.
Proof.
  intros Ha. unfold row_passes. rewrite Ha.
  destruct (String.eqb logic "AND") eqn:E.
  - apply String.eqb_eq in E; subst logic.
    now rewrite fold_tests_forallb.
  - now rewrite fold_tests_existsb.
Qed.

(** What the [try] block computes. *)
Lemma apply_filters_try_spec df conds logic :
  apply_filters_try df conds logic =
  match first_failure df conds with
  | Some e => inl e
  | None => inr (keep_rows (row_passes regex_test df conds logic) df)
  end.
Proof.
  unfold apply_filters_try.
  destruct (first_failure df conds) as [e|] eqn:Hf.
  - now rewrite (filter_loop_raises _ _ _ _ Hf).
  - rewrite (filter_loop_from_none _ _ _ Hf); simpl.
    destruct (active df conds) as [|c acts] eqn:Ha.
    + rewrite keep_rows_all; [reflexivity|].
      intros r. unfold row_passes. now rewrite Ha.
    + unfold getitem_mask, keep_rows. f_equal. f_equal.
      rewrite select_rows_map. apply filter_ext.
      intros r. now apply combined_mask_row_passes.
Qed.

(** What [apply_filters] returns and what it leaves in the session. *)
Lemma apply_filters_spec df conds logic st :
  apply_filters df conds logic st =
  match first_failure df conds with
  | Some e => (df, log_error ("Error applying filters: " ++ str_exn e) st)
  | None => (keep_rows (row_passes regex_test df conds logic) df, st)
  end.
Proof.
  unfold apply_filters. rewrite apply_filters_try_spec.
  now destruct (first_failure df conds).
Qed.

Lemma filtered_spec df conds logic :
  filtered df conds logic =
  match first_failure df conds with
  | Some _ => df
  | None => keep_rows (row_passes regex_test df conds logic) df
  end.
Proof.
  unfold filtered. rewrite apply_filters_spec.
  now destruct (first_failure df conds).
Qed.

Lemma fst_apply_filters df conds logic st :
  fst (apply_filters df conds logic st) = filtered df conds logic.
Proof.
  rewrite filtered_spec, apply_filters_spec.
  now destruct (first_failure df conds).
Qed.

Lemma active_nil_iff df conds :
  active df conds = [] <->
  (forall c, In c conds -> in_columns (fst c) df = false).
Proof.
  unfold active. induction conds as [|c rest IH]; simpl.
  - split; [intros _ c [] | reflexivity].
  - destruct (in_columns (fst c) df) eqn:E.
    + split; [discriminate|]. intros Hall.
      rewrite (Hall c) in E by now left. discriminate.
    + rewrite IH. split.
      * intros Hall c' [<-|Hin]; auto.
      * intros Hall c' Hin. apply Hall. now right.
Qed.

Lemma first_failure_inactive df conds :
  active df conds = [] -> first_failure df conds = None.
Proof.
  rewrite active_nil_iff.
  induction conds as [|c rest IH]; simpl; intros Hall; [reflexivity|].
  rewrite (Hall c) by now left.
  apply IH. intros c' Hin. apply Hall. now right.
Qed.

Lemma positions_from_bound (column : string) (labels : list string) :
  forall k i, In i (positions_from k column labels) ->
              k <= i < k + length labels.
Proof.
  induction labels as [|l labels IH]; intros k i Hin; simpl in *.
  - destruct Hin.
  - destruct (String.eqb column l).
    + destruct Hin as [<-|Hin]; [lia|]. apply IH in Hin. lia.
    + apply IH in Hin. lia.
Qed.

(** In a rectangular frame every row has a cell under every column, so
    the texts of a column are the texts of its cells. *)
Lemma text_at_rectangular df column (i : nat) (r : list cell) :
  rectangular df -> In i (positions column df) -> In r (rows df) ->
  exists v, nth_error r i = Some v /\ text_at i r = astype_str v.
Proof.
  intros Hrect Hi Hr.
  apply positions_from_bound in Hi.
  unfold rectangular in Hrect. rewrite Forall_forall in Hrect.
  specialize (Hrect r Hr).
  destruct (nth_error r i) as [v|] eqn:E.
  - exists v. split; [reflexivity|]. unfold text_at. now rewrite E.
  - apply nth_error_None in E. lia.
Qed.

End FilterFacts.

(* ================================================================== *)
(** * The executable host *)

Module AsciiHostFacts.
Import PyStr AsciiHost.

Lemma startswith_spec (s p : string) :
  startswith s p = true <-> exists b, s = (p ++ b)%string.
Proof.
  revert s; induction p as [|c p IH]; intros s; simpl.
  - split; [intros _; now exists s | reflexivity].
  - destruct s as [|d s].
    + split; [discriminate | intros [b Hb]; discriminate].
    + rewrite andb_true_iff, Ascii.eqb_eq, IH. split.
      * intros [-> [b ->]]. now exists b.
      * intros [b Hb]. inversion Hb; subst. split; [reflexivity | now exists b].
Qed.

(** [contains] is the substring relation. *)
Lemma contains_spec (needle s : string) :
  contains needle s = true <-> exists a b, s = (a ++ needle ++ b)%string.
Proof.
  induction s as [|d s IH]; simpl; rewrite orb_true_iff.
  - rewrite startswith_spec. split.
    + intros [[b Hb]|Hf]; [|discriminate]. now exists EmptyString, b.
    + intros [a [b Hab]]. left. exists b.
      destruct a; [exact Hab | discriminate].
  - rewrite startswith_spec, IH. split.
    + intros [[b Hb]|[a [b Hab]]].
      * now exists EmptyString, b.
      * exists (String d a), b. simpl. now rewrite Hab.
    + intros [[|c a] [b Hab]].
      * left. now exists b.
      * right. exists a, b. simpl in Hab. congruence.
Qed.

Lemma ordinary_not_backslash (c : ascii) :
  ordinary c = true -> Ascii.eqb c "\" = false /\ Ascii.eqb c "." = false.
Proof.
  unfold ordinary, is_special. rewrite andb_true_iff, negb_true_iff.
  intros [_ Hs]. simpl in Hs.
  rewrite !orb_false_iff in Hs. tauto.
Qed.

Lemma compile_ordinary (pattern : string) :
  all_chars ordinary pattern = true ->
  forall i, compile_from i pattern = inr (literal pattern).
Proof.
  induction pattern as [|c rest IH]; simpl; intros Hall i; [reflexivity|].
  apply andb_true_iff in Hall. destruct Hall as [Hc Hrest].
  destruct (ordinary_not_backslash c Hc) as [-> ->].
  rewrite Hc, (IH Hrest). reflexivity.
Qed.

Lemma match_here_literal (pattern s : string) :
  match_here (literal pattern) s = startswith (lower s) (lower pattern).
Proof.
  revert s; induction pattern as [|c rest IH]; intros s; simpl.
  - reflexivity.
  - destruct s as [|d s]; simpl; [reflexivity|].
    now rewrite IH.
Qed.

Lemma search_literal (pattern s : string) :
  search (literal pattern) s = contains (lower pattern) (lower s).
Proof.
  induction s as [|d s IH]; simpl.
  - now rewrite (match_here_literal pattern EmptyString).
  - now rewrite (match_here_literal pattern (String d s)), IH.
Qed.

(** On a pattern of ordinary characters the regular-expression test is
    the case-insensitive substring test. *)
Lemma regex_test_ordinary (pattern : string) (text : option string) :
  all_chars ordinary pattern = true ->
  @regex_test host pattern text = substring_test pattern text.
Proof.
  intros Hp. unfold regex_test, substring_test; simpl.
  unfold compile. rewrite (compile_ordinary _ Hp).
  destruct text as [s|]; [apply search_literal | reflexivity].
Qed.

End AsciiHostFacts.

(* ================================================================== *)
(** * Properties of [apply_filters] *)

(** C1, as the specification words it, fails: the pattern is handed to
    [str.contains] as a regular expression.  On the scenario's table the
    condition (Region contains ".") keeps both rows, although neither
    "East" nor "West" holds a dot. *)
Lemma apply_filters_substring_counterexample :
  fst (@apply_filters AsciiHost.host AsciiHost.sales [("Region", ".")] "AND"
                      initial_state)
  <> @substring_filter AsciiHost.host AsciiHost.sales [("Region", ".")] "AND".
Proof. vm_compute. discriminate. Qed.

(** C1, amended.  For every host, table, list of conditions, logic and
    session: if evaluating some condition on an existing column raises,
    [apply_filters] returns the table unchanged and logs the exception;
    otherwise it returns the rows, in their original order, on which the
    combined mask holds, and leaves the session as it was.  A condition
    whose column exists tests whether the text of the row's value holds a
    match of the pattern read as a case-insensitive regular expression,
    and is false on a value whose text is missing; the tests of the
    conditions whose column exists are combined with AND, or with OR
    otherwise, and every row passes when no column exists.  With Python's
    [re] on ASCII text, a pattern of ordinary characters matches exactly
    when the text holds it as a substring, letter case ignored.  On the
    table with rows (East, 10) and (West, 5), the condition
    (Region contains "east") under AND returns the single row (East, 10). *)
Theorem apply_filters_regex_mask :
  (forall (H : Host) (df : DataFrame) (conds : list (string * string))
          (logic : string) (st : SessionState),
      apply_filters df conds logic st =
      match first_failure df conds with
      | Some e => (df, log_error ("Error applying filters: " ++ str_exn e) st)
      | None => (keep_rows (row_passes regex_test df conds logic) df, st)
      end)
  /\ (forall (pattern : string) (text : option string),
         PyStr.all_chars AsciiHost.ordinary pattern = true ->
         @regex_test AsciiHost.host pattern text = substring_test pattern text)
  /\ (forall (pattern s : string),
         PyStr.all_chars AsciiHost.ordinary pattern = true ->
         (@regex_test AsciiHost.host pattern (Some s) = true <->
          exists a b,
            PyStr.lower s = (a ++ PyStr.lower pattern ++ b)%string))
  /\ @apply_filters AsciiHost.host AsciiHost.sales [("Region", "east")] "AND"
                    initial_state
     = (AsciiHost.east_only, initial_state).
Proof.
  split; [|split; [|split]].
  - intros H df conds logic st. apply apply_filters_spec.
  - intros pattern text Hp. now apply AsciiHostFacts.regex_test_ordinary.
  - intros pattern s Hp.
    rewrite AsciiHostFacts.regex_test_ordinary by exact Hp.
    apply AsciiHostFacts.contains_spec.
  - reflexivity.
Qed.

Lemma apply_filters_regex_mask_witness :
  PyStr.all_chars AsciiHost.ordinary "east" = true
  /\ @regex_test AsciiHost.host "east" (Some "North-East")
     = substring_test "east" (Some "North-East")
  /\ @regex_test AsciiHost.host "east" (Some "North-East") = true.
Proof.
  split; [reflexivity|]. split; [|reflexivity].
  exact (proj1 (proj2 apply_filters_regex_mask)
               "east" (Some "North-East") eq_refl).
Defined.

(** C2.  With the empty list of conditions, and more generally whenever
    no condition of the list names a column of the table,
    [apply_filters] returns the table it was given, and leaves the
    session as it was. *)
Theorem apply_filters_without_active_condition
    {H : Host} (df : DataFrame) (logic : string) (st : SessionState) :
  apply_filters df [] logic st = (df, st)
  /\ forall conds : list (string * string),
       (forall c, In c conds -> in_columns (fst c) df = false) ->
       apply_filters df conds logic st = (df, st).
Proof.
  split; [reflexivity|].
  intros conds Hnone.
  apply active_nil_iff in Hnone.
  rewrite apply_filters_spec, (first_failure_inactive _ _ Hnone).
  rewrite keep_rows_all; [reflexivity|].
  intros r. unfold row_passes. now rewrite Hnone.
Qed.

Lemma apply_filters_without_active_condition_witness :
  (forall c, In c [("Country", "x"); ("Year", "2020")] ->
             @in_columns AsciiHost.host (fst c) AsciiHost.sales = false)
  /\ @apply_filters AsciiHost.host AsciiHost.sales
                    [("Country", "x"); ("Year", "2020")] "OR" initial_state
     = (AsciiHost.sales, initial_state).
Proof.
  assert (Hnone : forall c, In c [("Country", "x"); ("Year", "2020")] ->
                  @in_columns AsciiHost.host (fst c) AsciiHost.sales = false).
  { intros c [<-|[<-|[]]]; reflexivity. }
  split; [exact Hnone|].
  exact (proj2 (@apply_filters_without_active_condition
                  AsciiHost.host AsciiHost.sales "OR" initial_state)
               _ Hnone).
Defined.

Section WithinFacts.

Context {H : Host}.

Lemma filter_length_mono {A : Type} (p q : A -> bool) (l : list A) :
  (forall x, p x = true -> q x = true) ->
  length (filter p l) <= length (filter q l).
Proof.
  intros Hpq; induction l as [|x l IH]; simpl; [lia|].
  destruct (p x) eqn:Hp.
  - rewrite (Hpq x Hp). simpl. lia.
  - destruct (q x); simpl; lia.
Qed.

Lemma within_refl (df : DataFrame) : within df df.
Proof. split; [apply incl_refl | lia]. Qed.

Lemma within_keep_rows (p q : list cell -> bool) (df : DataFrame) :
  (forall r, p r = true -> q r = true) ->
  within (keep_rows p df) (keep_rows q df).
Proof.
  intros Hpq. split; simpl.
  - intros r Hr. apply filter_In in Hr. apply filter_In.
    destruct Hr as [Hin Hp]. auto.
  - now apply filter_length_mono.
Qed.

Lemma within_keep_rows_all (p : list cell -> bool) (df : DataFrame) :
  within (keep_rows p df) df.
Proof.
  split; simpl.
  - apply incl_filter.
  - apply filter_length_le.
Qed.

End WithinFacts.

(** Repeated step of the proofs below: split on whether a condition is
    active and whether it raises. *)
Ltac split_condition df c :=
  let A := fresh "Hactive" in
  let E := fresh "Herror" in
  destruct (in_columns (fst c) df) eqn:A;
  destruct (condition_error df c) eqn:E;
  simpl in *; try discriminate.

(** C3, as the specification words it, fails when a condition names a
    column the table does not have: alone it returns the whole table,
    which the OR of it with a condition on an existing column need not
    contain. *)
Lemma and_or_absent_column_counterexample :
  ~ @and_narrows_or_widens AsciiHost.host AsciiHost.sales
      ("Country", "x") ("Region", "east") "OR".
Proof.
  intros [_ [_ [[Hincl _] _]]].
  specialize (Hincl [AsciiHost.Text "West"; AsciiHost.Int 5]).
  vm_compute in Hincl.
  destruct Hincl as [E|[]]; [now right; left | discriminate E].
Qed.

(** It also fails when a pattern is not a regular expression: the two
    conditions together then return the whole table, which is more than
    the first condition returns alone. *)
Example and_fallback_is_broader :
  rows (@filtered AsciiHost.host AsciiHost.sales
          [("Region", "east"); ("Region", "east\")] "AND")
  = rows AsciiHost.sales
  /\ rows (@filtered AsciiHost.host AsciiHost.sales [("Region", "east")] "AND")
     = rows AsciiHost.east_only.
Proof. split; reflexivity. Qed.

(** C3, amended.  For every table and two conditions: when evaluating the
    two conditions together raises no exception, the rows returned under
    AND are among the rows either condition returns alone, and are not
    more; when both conditions name columns of the table, the rows either
    condition returns alone are among the rows returned under OR, and are
    not more. *)
Theorem and_narrows_or_widens_on_present_columns
    {H : Host} (df : DataFrame) (c1 c2 : string * string) (logic : string) :
  (first_failure df [c1; c2] = None ->
     within (filtered df [c1; c2] "AND") (filtered df [c1] logic)
     /\ within (filtered df [c1; c2] "AND") (filtered df [c2] logic))
  /\ (in_columns (fst c1) df = true -> in_columns (fst c2) df = true ->
     within (filtered df [c1] logic) (filtered df [c1; c2] "OR")
     /\ within (filtered df [c2] logic) (filtered df [c1; c2] "OR")).
Proof.
  split.
  - intros Hok. rewrite !filtered_spec, Hok.
    simpl in *.
    split_condition df c1; split_condition df c2;
      (split; apply within_keep_rows; intros r;
       unfold row_passes, active; simpl;
       rewrite ?Hactive, ?Hactive0; simpl;
       destruct (String.eqb logic "AND"); simpl;
       destruct (condition_holds regex_test df c1 r),
                (condition_holds regex_test df c2 r); simpl; auto).
  - intros A1 A2. rewrite !filtered_spec. simpl. rewrite A1, A2.
    destruct (condition_error df c1) eqn:E1;
      destruct (condition_error df c2) eqn:E2;
      (split;
       try apply within_refl; try apply within_keep_rows_all;
       apply within_keep_rows; intros r;
       unfold row_passes, active; simpl;
       rewrite A1, ?A2; simpl;
       destruct (String.eqb logic "AND"); simpl;
       destruct (condition_holds regex_test df c1 r),
                (condition_holds regex_test df c2 r); simpl; auto).
Qed.

Lemma and_narrows_or_widens_on_present_columns_witness :
  @first_failure AsciiHost.host AsciiHost.sales
     [("Region", "east"); ("Amt", "1")] = None
  /\ @in_columns AsciiHost.host "Region" AsciiHost.sales = true
  /\ @in_columns AsciiHost.host "Amt" AsciiHost.sales = true
  /\ @and_narrows_or_widens AsciiHost.host AsciiHost.sales
       ("Region", "east") ("Amt", "1") "OR".
Proof.
  destruct (@and_narrows_or_widens_on_present_columns
              AsciiHost.host AsciiHost.sales
              ("Region", "east") ("Amt", "1") "OR") as [Hand Hor].
  split; [reflexivity|]. split; [reflexivity|]. split; [reflexivity|].
  destruct (Hand eq_refl) as [H1 H2].
  destruct (Hor eq_refl eq_refl) as [H3 H4].
  unfold and_narrows_or_widens. tauto.
Defined.

(** C8.  [apply_filters] always returns.  Its [try] block raises exactly
    when evaluating an active condition does; the exception is then
    caught, one entry that carries its text is appended to the error log,
    nothing else in the session changes, and the table returned is the
    input table.  When nothing is raised the session is left as it was. *)
Theorem apply_filters_never_raises
    {H : Host} (df : DataFrame) (conds : list (string * string))
    (logic : string) (st : SessionState) :
  apply_filters_try df conds logic
  = match first_failure df conds with
    | Some e => inl e
    | None => inr (keep_rows (row_passes regex_test df conds logic) df)
    end
  /\ match apply_filters_try df conds logic with
     | inr result => apply_filters df conds logic st = (result, st)
     | inl e =>
         apply_filters df conds logic st
         = (df, log_error ("Error applying filters: " ++ str_exn e) st)
         /\ error_sheets (snd (apply_filters df conds logic st))
            = error_sheets st ++ [("Error applying filters: " ++ str_exn e)%string]
         /\ processed_sheets (snd (apply_filters df conds logic st))
            = processed_sheets st
     end.
Proof.
  split; [apply apply_filters_try_spec|].
  unfold apply_filters.
  destruct (apply_filters_try df conds logic) as [e|result]; simpl; auto.
Qed.

(** A label that names two columns makes the filter fail; the table comes
    back whole and the failure is in the log. *)
Example apply_filters_duplicate_label :
  @apply_filters AsciiHost.host AsciiHost.twice [("Region", "east")] "AND"
                 initial_state
  = (AsciiHost.twice,
     log_error "Error applying filters: 'DataFrame' object has no attribute 'str'"
               initial_state).
Proof. reflexivity. Qed.

(** So does a pattern that is not a regular expression. *)
Example apply_filters_bad_pattern :
  @apply_filters AsciiHost.host AsciiHost.sales [("Region", "east\")] "OR"
                 initial_state
  = (AsciiHost.sales,
     log_error "Error applying filters: bad escape (end of pattern) at position 4"
               initial_state).
Proof. reflexivity. Qed.

(* ================================================================== *)
(** * The combiner *)

Section CombinerFacts.

Context {H : Host}.

Implicit Types (df : DataFrame) (conds : list (string * string)).
Implicit Types (logic file_name sheet_name : string) (st : SessionState).
Implicit Types (processed preview : list NamedTable).

Lemma keep_some_app {A B : Type} (f : A -> option B) (l1 l2 : list A) :
  keep_some f (l1 ++ l2) = keep_some f l1 ++ keep_some f l2.
Proof.
  induction l1 as [|x l1 IH]; simpl; [reflexivity|].
  destruct (f x); simpl; now rewrite IH.
Qed.

Lemma In_keep_some {A B : Type} (f : A -> option B) (l : list A) (y : B) :
  In y (keep_some f l) <-> exists x, In x l /\ f x = Some y.
Proof.
  induction l as [|x l IH]; simpl.
  - split; [intros [] | intros [x [[] _]]].
  - destruct (f x) as [z|] eqn:E; simpl; rewrite IH; split.
    + intros [<-|[x' [Hin Hx']]]; eauto.
    + intros [x' [[<-|Hin] Hx']]; [left; congruence | right; eauto].
    + intros [x' [Hin Hx']]; eauto.
    + intros [x' [[<-|Hin] Hx']]; [congruence | eauto].
Qed.

(** The rename notice only prints. *)
Lemma rename_notice_session sheet_name file_name st :
  processed_sheets (rename_notice sheet_name file_name st) = processed_sheets st
  /\ error_sheets (rename_notice sheet_name file_name st) = error_sheets st
  /\ io (rename_notice sheet_name file_name st) = io st.
Proof.
  unfold rename_notice.
  destruct (negb _ || negb _); simpl; auto.
Qed.

Lemma apply_filters_session df conds logic st :
  processed_sheets (snd (apply_filters df conds logic st)) = processed_sheets st
  /\ io (snd (apply_filters df conds logic st)) = io st.
Proof.
  unfold apply_filters.
  destruct (apply_filters_try df conds logic); simpl; auto.
Qed.

(** A failed filter returns the table it was given, so a non-empty table
    whose filtered result is empty was filtered without failure. *)
Lemma empty_filtered_no_failure df conds logic st :
  empty df = false -> empty (filtered df conds logic) = true ->
  snd (apply_filters df conds logic st) = st.
Proof.
  intros Hdf Hf. rewrite filtered_spec in Hf. rewrite apply_filters_spec.
  destruct (first_failure df conds); [congruence | reflexivity].
Qed.

(** One iteration of the sheet loop, case by case. *)
Lemma process_sheet_spec file_name conds logic (pv : bool)
    processed preview st sheet_name df :
  process_sheet file_name conds logic pv (processed, preview, st)
                (sheet_name, df)
  = (processed
       ++ keep_some (output_entry conds logic) [(file_name, sheet_name, df)],
     preview
       ++ (if pv
           then preview_of (keep_some (output_entry conds logic)
                                      [(file_name, sheet_name, df)])
           else []),
     sheet_session file_name conds logic st (sheet_name, df)).
Proof.
  unfold sheet_session, process_sheet, output_entry; simpl.
  destruct (empty df) eqn:Hdf; simpl.
  - destruct pv; now rewrite ?app_nil_r.
  - rewrite <- (fst_apply_filters df conds logic
                  (rename_notice sheet_name file_name st)).
    destruct (apply_filters df conds logic
                (rename_notice sheet_name file_name st)) as [d st2]; simpl.
    destruct (empty d) eqn:Hd; simpl;
      destruct pv; now rewrite ?app_nil_r.
Qed.

Lemma fold_process_sheet file_name conds logic (pv : bool) (sheets : Sheets) :
  forall processed preview st,
    fold_left (process_sheet file_name conds logic pv) sheets
              (processed, preview, st)
    = (processed
         ++ keep_some (output_entry conds logic)
                      (sheets_of_file file_name sheets),
       preview
         ++ (if pv
             then preview_of (keep_some (output_entry conds logic)
                                        (sheets_of_file file_name sheets))
             else []),
       fold_left (sheet_session file_name conds logic) sheets st).
Proof.
  induction sheets as [|[sheet_name df] sheets IH]; intros processed preview st.
  - simpl. destruct pv; now rewrite !app_nil_r.
  - cbn [fold_left]. rewrite process_sheet_spec, IH.
    change (sheets_of_file file_name ((sheet_name, df) :: sheets))
      with ([(file_name, sheet_name, df)] ++ sheets_of_file file_name sheets).
    rewrite keep_some_app.
    destruct pv; unfold preview_of;
      now rewrite ?map_app, <- ?app_assoc, ?app_nil_r.
Qed.

Lemma process_excel_file_spec (content : FileContent) file_name conds logic
    (pv : bool) st :
  process_excel_file content file_name conds logic pv st
  = (file_entries file_name conds logic content,
     (if pv then preview_of (file_entries file_name conds logic content)
      else []),
     file_session file_name conds logic content st).
Proof.
  unfold process_excel_file, file_entries, file_session.
  destruct content as [e|[|sheet sheets]].
  - now destruct pv.
  - now destruct pv.
  - now rewrite fold_process_sheet.
Qed.

End CombinerFacts.

Section CombinerTheorems.

Context {H : Host}.

Implicit Types (df : DataFrame) (conds : list (string * string)).
Implicit Types (logic file_name sheet_name : string) (st : SessionState).

Lemma combine_loop_entries (z : ZipFile) conds logic
    (excel_files : list string) :
  forall all_sheets st out st',
    combine_loop z excel_files conds logic all_sheets st = (inr out, st') ->
    out = all_sheets
            ++ keep_some (output_entry conds logic)
                         (sheets_in_order z excel_files).
Proof.
  induction excel_files as [|file_name rest IH];
    intros all_sheets st out st' Hrun; simpl in Hrun.
  - inversion Hrun. simpl. now rewrite app_nil_r.
  - unfold sheets_in_order, sheets_of in *; simpl.
    destruct (zopen z file_name) as [e|content]; [discriminate|].
    rewrite process_excel_file_spec in Hrun.
    apply IH in Hrun. rewrite Hrun, keep_some_app, app_assoc.
    f_equal. f_equal. unfold file_entries.
    now destruct content.
Qed.

(** C6.  When the loop of the combine button runs to its end, its list
    is made of the output entries of the sheets of the archive taken
    file by file in the order of the file names, and within one file in
    the order of its sheets; a sheet without entry leaves no gap.  The
    name of the entry of a sheet is the sanitized sheet name, an
    underscore and the sanitized base name of the file, cut to 31
    characters, and its table is the filtered sheet. *)
Theorem combine_loop_keeps_input_order (z : ZipFile) conds logic
    (excel_files : list string) st (out : list NamedTable) st' :
  combine_loop z excel_files conds logic [] st = (inr out, st') ->
  out = keep_some (output_entry conds logic) (sheets_in_order z excel_files)
  /\ sheets_in_order z excel_files
     = flat_map (fun file_name =>
                   map (fun '(sheet_name, df) => (file_name, sheet_name, df))
                       (sheets_of z file_name))
                excel_files
  /\ forall name d,
       In (name, d) out ->
       exists file_name sheet_name df,
         In (file_name, sheet_name, df) (sheets_in_order z excel_files)
         /\ name = PyStr.slice_to 31
                     (sanitize_sheet_name sheet_name ++ "_"
                        ++ sanitize_sheet_name (splitext_root file_name))
         /\ d = filtered df conds logic.
Proof.
  intros Hrun. apply combine_loop_entries in Hrun. simpl in Hrun.
  split; [exact Hrun|]. split; [reflexivity|].
  intros name d Hin. rewrite Hrun in Hin.
  apply In_keep_some in Hin.
  destruct Hin as [[[file_name sheet_name] df] [Hin Hentry]].
  exists file_name, sheet_name, df. split; [exact Hin|].
  unfold output_entry in Hentry.
  destruct (empty df); [discriminate|].
  destruct (empty (filtered df conds logic)); [discriminate|].
  inversion Hentry. auto.
Qed.

(** C7.  One iteration of the sheet loop.  An empty sheet adds no entry,
    leaves the count of processed sheets as it was and appends "Sheet is
    empty" to the log.  A non-empty sheet whose filtered result is empty
    adds no entry, leaves the count as it was and appends "No rows
    remain after filtering" to the log.  A non-empty sheet whose
    filtered result is non-empty adds the entry of its name and filtered
    table, and adds one to the count.  For a whole workbook: every table
    of the output is non-empty, the count grows by the number of output
    entries, and the output is made of the entries of the non-empty
    sheets with non-empty filtered result. *)
Theorem sheet_contributes_iff_nonempty file_name conds logic (pv : bool)
    (processed preview : list NamedTable) st sheet_name df :
  let result :=
    process_sheet file_name conds logic pv (processed, preview, st)
                  (sheet_name, df) in
  (empty df = true ->
     fst (fst result) = processed
     /\ processed_sheets (snd result) = processed_sheets st
     /\ error_sheets (snd result)
        = error_sheets st
            ++ [(sheet_name ++ " in " ++ file_name ++ ": Sheet is empty")%string])
  /\ (empty df = false -> empty (filtered df conds logic) = true ->
     fst (fst result) = processed
     /\ processed_sheets (snd result) = processed_sheets st
     /\ error_sheets (snd result)
        = error_sheets st
            ++ [(sheet_name ++ " in " ++ file_name
                   ++ ": No rows remain after filtering")%string])
  /\ (empty df = false -> empty (filtered df conds logic) = false ->
     fst (fst result)
     = processed ++ [(new_sheet_name sheet_name file_name,
                      filtered df conds logic)]
     /\ processed_sheets (snd result) = S (processed_sheets st))
  /\ (forall (content : FileContent),
        let whole := process_excel_file content file_name conds logic pv st in
        (forall name d, In (name, d) (fst (fst whole)) -> empty d = false)
        /\ processed_sheets (snd whole)
           = processed_sheets st + length (fst (fst whole))
        /\ fst (fst whole) = file_entries file_name conds logic content).
Proof.
  cbv zeta.
  destruct (rename_notice_session sheet_name file_name st) as [Hn [He _]].
  split; [|split; [|split]].
  - intros Hdf. unfold process_sheet. rewrite Hdf. simpl.
    now rewrite Hn, He.
  - intros Hdf Hf. unfold process_sheet. rewrite Hdf.
    pose proof (empty_filtered_no_failure df conds logic
                  (rename_notice sheet_name file_name st) Hdf Hf) as Hst.
    pose proof (fst_apply_filters df conds logic
                  (rename_notice sheet_name file_name st)) as Hd.
    destruct (apply_filters df conds logic
                (rename_notice sheet_name file_name st)) as [d st2].
    simpl in Hst, Hd. subst d st2. rewrite Hf. simpl.
    now rewrite Hn, He.
  - intros Hdf Hf. unfold process_sheet. rewrite Hdf.
    pose proof (apply_filters_session df conds logic
                  (rename_notice sheet_name file_name st)) as [Hc _].
    pose proof (fst_apply_filters df conds logic
                  (rename_notice sheet_name file_name st)) as Hd.
    destruct (apply_filters df conds logic
                (rename_notice sheet_name file_name st)) as [d st2].
    simpl in Hc, Hd. subst d. rewrite Hf. simpl.
    now rewrite Hc, Hn.
  - intros content. rewrite process_excel_file_spec. simpl.
    split; [|split; [|reflexivity]].
    + intros name d Hin. unfold file_entries in Hin.
      destruct content as [e|sheets]; [destruct Hin|].
      apply In_keep_some in Hin.
      destruct Hin as [[[f s] df'] [_ Hentry]].
      unfold output_entry in Hentry.
      destruct (empty df'); [discriminate|].
      destruct (empty (filtered df' conds logic)) eqn:E; [discriminate|].
      inversion Hentry; subst. exact E.
    + unfold file_session, file_entries.
      destruct content as [e|sheets]; simpl; [lia|].
      assert (Hfold : forall st0,
                 processed_sheets
                   (fold_left (sheet_session file_name conds logic) sheets st0)
                 = processed_sheets st0
                   + length (keep_some (output_entry conds logic)
                                       (sheets_of_file file_name sheets))).
      { induction sheets as [|[s d] sheets IH]; intros st0; simpl; [lia|].
        rewrite IH. unfold sheet_session, process_sheet, output_entry.
        destruct (rename_notice_session s file_name st0) as [Hn0 _].
        destruct (empty d) eqn:Hdf; simpl; [lia|].
        pose proof (apply_filters_session d conds logic
                      (rename_notice s file_name st0)) as [Hc _].
        pose proof (fst_apply_filters d conds logic
                      (rename_notice s file_name st0)) as Hd.
        destruct (apply_filters d conds logic
                    (rename_notice s file_name st0)) as [d' st2].
        simpl in Hc, Hd. subst d'.
        destruct (empty (filtered d conds logic)); simpl; lia. }
      destruct sheets as [|sheet sheets]; [simpl; lia|].
      rewrite Hfold. simpl. lia.
Qed.

End CombinerTheorems.

Lemma combine_loop_keeps_input_order_witness :
  let files := ["Sales.xlsx"; "Stock.xlsx"] in
  let conds := [("Region", "east")] in
  let out := [("Q1_Sales", AsciiHost.east_only);
              ("Q1_Stock", AsciiHost.east_only);
              ("Q2_Stock", AsciiHost.east_only)] in
  fst (@combine_loop AsciiHost.host AsciiHost.archive files conds "AND" []
                     initial_state) = inr out
  /\ out = keep_some (output_entry conds "AND")
                     (sheets_in_order AsciiHost.archive files).
Proof.
  intros files conds out. split; [reflexivity|].
  exact (proj1 (@combine_loop_keeps_input_order
                  AsciiHost.host AsciiHost.archive conds "AND" files
                  initial_state out
                  (snd (combine_loop AsciiHost.archive files conds "AND" []
                                     initial_state))
                  eq_refl)).
Defined.

Lemma sheet_contributes_iff_nonempty_witness :
  let df := AsciiHost.frame ["Region"] [] in
  let result :=
    @process_sheet AsciiHost.host "Stock.xlsx" [("Region", "east")] "AND"
                   false ([], [], initial_state) ("Empty", df) in
  empty df = true
  /\ fst (fst result) = []
  /\ processed_sheets (snd result) = 0
  /\ error_sheets (snd result) = ["Empty in Stock.xlsx: Sheet is empty"].
Proof.
  intros df result. split; [reflexivity|].
  exact (proj1 (@sheet_contributes_iff_nonempty
                  AsciiHost.host "Stock.xlsx" [("Region", "east")] "AND"
                  false [] [] initial_state "Empty" df)
               eq_refl).
Defined.

(** A sheet whose rows are all filtered away is logged and left out. *)
Example west_filtered_away :
  @process_sheet AsciiHost.host "Sales.xlsx" [("Region", "north")] "AND"
                 false ([], [], initial_state) ("Q1", AsciiHost.sales)
  = ([], [],
     log_error "Q1 in Sales.xlsx: No rows remain after filtering" initial_state).
Proof. reflexivity. Qed.

Section PreviewFacts.

Context {H : Host}.

Lemma firstn_min_length {A : Type} (n : nat) (l : list A) :
  firstn n l = firstn (Nat.min n (length l)) l.
Proof.
  destruct (Nat.le_ge_cases n (length l)) as [Hle|Hge].
  - now rewrite Nat.min_l.
  - rewrite Nat.min_r by exact Hge.
    now rewrite firstn_all, firstn_all2.
Qed.

(** C10.  For every workbook, file name, conditions, logic and session,
    [process_excel_file] with [preview=True] returns the same processed
    list and leaves the same session (error log and count of processed
    sheets included) as with [preview=False].  Without preview the
    preview list is empty; with preview it holds, for each entry of the
    processed list, in the same order and under the same name, the table
    cut to its first five rows, that is to as many rows as the smaller
    of 5 and its number of rows. *)
Theorem preview_only_adds_preview (content : FileContent)
    (file_name : string) (conds : list (string * string)) (logic : string)
    (st : SessionState) :
  let previewed := process_excel_file content file_name conds logic true st in
  let plain := process_excel_file content file_name conds logic false st in
  fst (fst previewed) = fst (fst plain)
  /\ snd previewed = snd plain
  /\ error_sheets (snd previewed) = error_sheets (snd plain)
  /\ processed_sheets (snd previewed) = processed_sheets (snd plain)
  /\ snd (fst plain) = []
  /\ snd (fst previewed)
     = map (fun '(name, df) => (name, head 5 df)) (fst (fst previewed))
  /\ map fst (snd (fst previewed)) = map fst (fst (fst previewed))
  /\ (forall df : DataFrame,
        columns (head 5 df) = columns df
        /\ rows (head 5 df) = firstn (Nat.min 5 (length (rows df))) (rows df)).
Proof.
  cbv zeta. rewrite !process_excel_file_spec.
  cbn [fst snd].
  split; [reflexivity|]. split; [reflexivity|].
  split; [reflexivity|]. split; [reflexivity|].
  split; [reflexivity|]. split; [reflexivity|].
  split.
  - unfold preview_of. rewrite map_map. apply map_ext.
    now intros [name df].
  - intros df. split; [reflexivity|].
    unfold head. cbn [rows]. apply firstn_min_length.
Qed.

End PreviewFacts.

Section RunFacts.

Context {H : Host}.

(** C9.  When the uploaded archive has more than 100 * 1024 * 1024
    bytes, the run resets the session, prints the size error and stops:
    no archive is opened, no member is opened and no workbook is read;
    the error log is empty and no sheet is counted. *)
Theorem oversized_upload_rejected (up : UploadedFile) (w : Widgets)
    (st : SessionState) :
  (upload_size up > 100 * 1024 * 1024)%Z ->
  run (Some up) w st
  = (show (UiError "ZIP file is too large (exceeds 100MB). Please upload a smaller file.")
          (reset_run st),
     None)
  /\ io (fst (run (Some up) w st)) = io st
  /\ error_sheets (fst (run (Some up) w st)) = []
  /\ processed_sheets (fst (run (Some up) w st)) = 0.
Proof.
  intros Hsize. unfold run, too_large.
  assert (E : (upload_size up >? 100 * (1024 * 1024))%Z = true)
    by (apply Z.gtb_lt; lia).
  rewrite E. simpl. auto.
Qed.

End RunFacts.

Lemma oversized_upload_rejected_witness :
  (upload_size (AsciiHost.upload 104857601) > 100 * 1024 * 1024)%Z
  /\ io (fst (@run AsciiHost.host (Some (AsciiHost.upload 104857601))
                   AsciiHost.widgets initial_state)) = []
  /\ error_sheets (fst (@run AsciiHost.host (Some (AsciiHost.upload 104857601))
                             AsciiHost.widgets initial_state)) = [].
Proof.
  assert (Hsize : (upload_size (AsciiHost.upload 104857601)
                   > 100 * 1024 * 1024)%Z) by (simpl; lia).
  split; [exact Hsize|].
  destruct (@oversized_upload_rejected AsciiHost.host
              (AsciiHost.upload 104857601) AsciiHost.widgets initial_state
              Hsize) as [_ [Hio [Hlog _]]].
  split; [exact Hio | exact Hlog].
Defined.

(** An archive of exactly 100 * 1024 * 1024 bytes is accepted: it is
    opened, its members are read and its sheets are combined. *)
Example upload_at_the_limit_is_read :
  let result := @run AsciiHost.host (Some (AsciiHost.upload 104857600))
                     AsciiHost.widgets initial_state in
  io (fst result)
  = [IoZipFile; IoZipFile;
     IoOpen "Sales.xlsx"; IoReadExcel "Sales.xlsx";
     IoOpen "Stock.xlsx"; IoReadExcel "Stock.xlsx";
     IoOpen "Sales.xlsx"; IoReadExcel "Sales.xlsx";
     IoOpen "Stock.xlsx"; IoReadExcel "Stock.xlsx"]
  /\ option_map (map fst) (snd result)
     = Some ["Q1_Sales"; "Q1_Stock"; "Q2_Stock"]
  /\ processed_sheets (fst result) = 3.
Proof. repeat split. Qed.

(* ================================================================== *)
(** * Further properties of the names *)

Module NameFacts.
Import PyStr PyStrFacts.

Lemma slice_to_all (n : nat) (s : string) :
  String.length s <= n -> slice_to n s = s.
Proof.
  revert s; induction n as [|n IH]; intros [|c s] Hlen; simpl in *;
    try reflexivity; try lia.
  rewrite IH by lia. reflexivity.
Qed.

Lemma slice_to_append_long (n : nat) (a b : string) :
  n <= String.length a -> slice_to n (a ++ b) = slice_to n a.
Proof.
  revert a; induction n as [|n IH]; intros [|c a] Hlen; simpl in *;
    try reflexivity; try lia.
  rewrite IH by lia. reflexivity.
Qed.

Lemma length_append (a b : string) :
  String.length (a ++ b) = String.length a + String.length b.
Proof. induction a as [|c a IH]; simpl; [reflexivity | now rewrite IH]. Qed.

Lemma all_chars_slice_to (p : ascii -> bool) (n : nat) (s : string) :
  all_chars p s = true -> all_chars p (slice_to n s) = true.
Proof.
  revert s; induction n as [|n IH]; intros [|c s]; simpl; auto.
  rewrite !andb_true_iff. intros [Hc Hs]. auto.
Qed.

Lemma all_chars_append (p : ascii -> bool) (a b : string) :
  all_chars p (a ++ b) = all_chars p a && all_chars p b.
Proof.
  induction a as [|c a IH]; simpl; [reflexivity|].
  now rewrite IH, andb_assoc.
Qed.

Lemma all_chars_re_sub_invalid (s : string) :
  all_chars (fun c => negb (is_invalid c)) (re_sub_invalid s) = true.
Proof.
  unfold re_sub_invalid.
  induction s as [|c s IH]; simpl; [reflexivity|].
  now rewrite replacement_is_valid, IH.
Qed.

Lemma re_sub_invalid_valid (s : string) :
  all_chars (fun c => negb (is_invalid c)) s = true -> re_sub_invalid s = s.
Proof.
  unfold re_sub_invalid.
  induction s as [|c s IH]; simpl; [reflexivity|].
  rewrite andb_true_iff, negb_true_iff. intros [Hc Hs].
  now rewrite Hc, IH.
Qed.

Lemma sanitized_is_valid (s : string) :
  valid_name (sanitize_sheet_name s) = true.
Proof.
  unfold valid_name, sanitize_sheet_name.
  rewrite all_chars_slice_to by apply all_chars_re_sub_invalid.
  rewrite length_slice_to, andb_true_r.
  apply Nat.leb_le, Nat.le_min_l.
Qed.

Lemma length_sanitized (s : string) :
  String.length (sanitize_sheet_name s) = Nat.min 31 (String.length s).
Proof.
  unfold sanitize_sheet_name, re_sub_invalid.
  now rewrite length_slice_to, length_map_chars.
Qed.

Lemma sanitize_fixed_iff (name : string) :
  sanitize_sheet_name name = name <-> valid_name name = true.
Proof.
  split.
  - intros Hfix. rewrite <- Hfix. apply sanitized_is_valid.
  - unfold valid_name. rewrite andb_true_iff, Nat.leb_le.
    intros [Hlen Hchars]. unfold sanitize_sheet_name.
    rewrite (re_sub_invalid_valid _ Hchars).
    now apply slice_to_all.
Qed.

End NameFacts.

(** X1.  The names [sanitize_sheet_name] returns unchanged are exactly
    those of at most 31 characters without any of / \\ * ? : [ ]. *)
Theorem sanitize_sheet_name_fixed_points (name : string) :
  sanitize_sheet_name name = name <-> valid_name name = true.
Proof. apply NameFacts.sanitize_fixed_iff. Qed.

Section NameTheorems.

Context {H : Host}.

(** X2.  The rename notice is printed exactly when the sheet name or the
    base name of the file is longer than 31 characters or holds an invalid
    character; otherwise the session is left as it was.  The notice is
    one warning and changes nothing else. *)
Theorem rename_notice_iff_name_changes (sheet_name file_name : string)
    (st : SessionState) :
  if valid_name sheet_name && valid_name (splitext_root file_name)
  then rename_notice sheet_name file_name st = st
  else exists msg,
      rename_notice sheet_name file_name st = show (UiWarning msg) st.
Proof.
  unfold rename_notice.
  destruct (valid_name sheet_name) eqn:Hs; simpl.
  - apply NameFacts.sanitize_fixed_iff in Hs. rewrite Hs, String.eqb_refl.
    simpl.
    destruct (valid_name (splitext_root file_name)) eqn:Hf.
    + apply NameFacts.sanitize_fixed_iff in Hf.
      now rewrite Hf, String.eqb_refl.
    + destruct (String.eqb _ (splitext_root file_name)) eqn:E.
      * apply String.eqb_eq, NameFacts.sanitize_fixed_iff in E. congruence.
      * simpl. eauto.
  - destruct (String.eqb _ sheet_name) eqn:E.
    + apply String.eqb_eq, NameFacts.sanitize_fixed_iff in E. congruence.
    + simpl. eauto.
Qed.

(** X3.  The name given to an output sheet has at most 31 characters and
    none of the invalid ones, whatever the sheet and file names. *)
Theorem new_sheet_name_is_valid (sheet_name file_name : string) :
  valid_name (new_sheet_name sheet_name file_name) = true
  /\ String.length (new_sheet_name sheet_name file_name) <= 31
  /\ sanitize_sheet_name (new_sheet_name sheet_name file_name)
     = new_sheet_name sheet_name file_name.
Proof.
  assert (Hv : valid_name (new_sheet_name sheet_name file_name) = true).
  { unfold new_sheet_name, valid_name. cbv zeta.
    rewrite PyStrFacts.length_slice_to.
    rewrite NameFacts.all_chars_slice_to.
    - rewrite andb_true_r. apply Nat.leb_le, Nat.le_min_l.
    - rewrite NameFacts.all_chars_append. simpl.
      pose proof (NameFacts.sanitized_is_valid sheet_name) as H1.
      pose proof (NameFacts.sanitized_is_valid (splitext_root file_name)) as H2.
      unfold valid_name in H1, H2.
      apply andb_true_iff in H1. apply andb_true_iff in H2.
      destruct H1 as [_ ->]. destruct H2 as [_ H2].
      simpl. exact H2. }
  split; [exact Hv|]. split.
  - unfold valid_name in Hv. apply andb_true_iff in Hv.
    now apply Nat.leb_le.
  - now apply NameFacts.sanitize_fixed_iff.
Qed.

(** X4.  A sheet name of 31 characters or more takes the whole output
    name: the file name does not show in it, so such sheets of different
    files get the same name.  When the sheet name, an underscore and the
    base name of the file fit in 31 characters, nothing is cut. *)
Theorem new_sheet_name_truncation (sheet_name file_name : string) :
  (31 <= String.length sheet_name ->
     new_sheet_name sheet_name file_name = sanitize_sheet_name sheet_name)
  /\ (String.length sheet_name + 1 + String.length (splitext_root file_name)
      <= 31 ->
     new_sheet_name sheet_name file_name
     = (sanitize_sheet_name sheet_name ++ "_"
          ++ sanitize_sheet_name (splitext_root file_name))%string).
Proof.
  pose proof (NameFacts.length_sanitized sheet_name) as Hs.
  pose proof (NameFacts.length_sanitized (splitext_root file_name)) as Hf.
  unfold new_sheet_name. cbv zeta. split; intros Hlen.
  - rewrite NameFacts.slice_to_append_long by lia.
    apply NameFacts.slice_to_all. lia.
  - apply NameFacts.slice_to_all.
    rewrite NameFacts.length_append. simpl. lia.
Qed.

End NameTheorems.

Lemma new_sheet_name_truncation_witness :
  31 <= String.length "Quarterly results, all regions!"
  /\ @new_sheet_name AsciiHost.host "Quarterly results, all regions!"
                     "Sales.xlsx"
     = @new_sheet_name AsciiHost.host "Quarterly results, all regions!"
                       "Stock.xlsx"
  /\ @new_sheet_name AsciiHost.host "Q1" "Sales.xlsx" = "Q1_Sales".
Proof.
  split; [simpl; lia|]. split.
  - rewrite (proj1 (@new_sheet_name_truncation AsciiHost.host
                      "Quarterly results, all regions!" "Sales.xlsx"))
      by (simpl; lia).
    rewrite (proj1 (@new_sheet_name_truncation AsciiHost.host
                      "Quarterly results, all regions!" "Stock.xlsx"))
      by (simpl; lia).
    reflexivity.
  - rewrite (proj2 (@new_sheet_name_truncation AsciiHost.host
                      "Q1" "Sales.xlsx")) by (simpl; lia).
    reflexivity.
Defined.

Lemma sanitize_sheet_name_fixed_points_witness :
  valid_name "Q1_Sales" = true /\ sanitize_sheet_name "Q1_Sales" = "Q1_Sales".
Proof.
  split; [reflexivity|].
  exact (proj2 (sanitize_sheet_name_fixed_points "Q1_Sales") eq_refl).
Defined.

(* ================================================================== *)
(** * Further properties of the filter engine *)

Section MoreFilterFacts.

Context {H : Host}.

Implicit Types (df : DataFrame) (conds : list (string * string)).
Implicit Types (logic : string) (st : SessionState).

Lemma filter_filter_same {A : Type} (p : A -> bool) (l : list A) :
  filter p (filter p l) = filter p l.
Proof.
  induction l as [|x l IH]; simpl; [reflexivity|].
  destruct (p x) eqn:E; simpl; rewrite ?E, IH; reflexivity.
Qed.

(** What a condition does depends on the frame through its column labels
    only. *)
Lemma first_failure_columns df df' conds :
  columns df' = columns df -> first_failure df' conds = first_failure df conds.
Proof.
  intros Hc. induction conds as [|c rest IH]; simpl; [reflexivity|].
  unfold in_columns, condition_error, positions. now rewrite Hc, IH.
Qed.

Lemma row_passes_columns (test : string -> option string -> bool)
    df df' conds logic r :
  columns df' = columns df ->
  row_passes test df' conds logic r = row_passes test df conds logic r.
Proof.
  intros Hc. unfold row_passes, active, in_columns, condition_holds, positions.
  now rewrite Hc.
Qed.

Lemma filtered_within df conds logic :
  within (filtered df conds logic) df.
Proof.
  rewrite filtered_spec. destruct (first_failure df conds).
  - apply within_refl.
  - apply within_keep_rows_all.
Qed.

Lemma active_app df conds more :
  active df (conds ++ more) = active df conds ++ active df more.
Proof. unfold active. apply filter_app. Qed.

Lemma first_failure_app_none df conds more :
  first_failure df (conds ++ more) = None ->
  first_failure df conds = None /\ first_failure df more = None.
Proof.
  induction conds as [|c rest IH]; simpl; intros Hf; [auto|].
  destruct (in_columns (fst c) df); [|auto].
  destruct (condition_error df c); [discriminate | auto].
Qed.

Lemma first_failure_app_some df conds more e :
  first_failure df conds = Some e -> first_failure df (conds ++ more) = Some e.
Proof.
  induction conds as [|c rest IH]; simpl; intros Hf; [discriminate|].
  destruct (in_columns (fst c) df); [|auto].
  destruct (condition_error df c); auto.
Qed.

(** The conditions that raise, as a test. *)
Lemma first_failure_none_iff df conds :
  first_failure df conds = None <->
  Forall (fun c => in_columns (fst c) df = true -> condition_error df c = None)
         conds.
Proof.
  induction conds as [|c rest IH]; simpl.
  - split; [constructor | reflexivity].
  - split.
    + intros Hf. constructor.
      * intros Ha. rewrite Ha in Hf.
        destruct (condition_error df c); [discriminate | reflexivity].
      * apply IH. destruct (in_columns (fst c) df); [|exact Hf].
        destruct (condition_error df c); [discriminate | exact Hf].
    + intros Hall. inversion Hall as [|c' rest' Hc Hrest]; subst.
      destruct (in_columns (fst c) df); [|now apply IH].
      rewrite Hc by reflexivity. now apply IH.
Qed.

Lemma forallb_permutation {A : Type} (p : A -> bool) (l l' : list A) :
  Permutation l l' -> forallb p l = forallb p l'.
Proof.
  induction 1; simpl; try congruence.
  now rewrite !andb_assoc, (andb_comm (p y) (p x)).
Qed.

Lemma existsb_permutation {A : Type} (p : A -> bool) (l l' : list A) :
  Permutation l l' -> existsb p l = existsb p l'.
Proof.
  induction 1; simpl; try congruence.
  now rewrite !orb_assoc, (orb_comm (p y) (p x)).
Qed.

Lemma filter_permutation {A : Type} (p : A -> bool) (l l' : list A) :
  Permutation l l' -> Permutation (filter p l) (filter p l').
Proof.
  induction 1; simpl.
  - constructor.
  - destruct (p x); [now constructor | assumption].
  - destruct (p x), (p y); try apply Permutation_refl; apply perm_swap.
  - eapply Permutation_trans; eassumption.
Qed.

Lemma row_passes_permutation (test : string -> option string -> bool)
    df conds conds' logic r :
  Permutation conds conds' ->
  row_passes test df conds logic r = row_passes test df conds' logic r.
Proof.
  intros Hp. unfold row_passes.
  pose proof (filter_permutation (fun c => in_columns (fst c) df) _ _ Hp) as Ha.
  fold (active df conds) in Ha. fold (active df conds') in Ha.
  destruct (active df conds) as [|c acts] eqn:E1.
  - apply Permutation_nil in Ha. now rewrite Ha.
  - destruct (active df conds') as [|c' acts'] eqn:E2.
    + apply Permutation_sym, Permutation_nil in Ha. discriminate.
    + destruct (String.eqb logic "AND").
      * now apply forallb_permutation.
      * now apply existsb_permutation.
Qed.

Lemma filtered_permutation df conds conds' logic :
  Permutation conds conds' ->
  filtered df conds logic = filtered df conds' logic.
Proof.
  intros Hp. rewrite !filtered_spec.
  destruct (first_failure df conds) as [e|] eqn:E1;
    destruct (first_failure df conds') as [e'|] eqn:E2; try reflexivity.
  - apply first_failure_none_iff in E2.
    apply (Permutation_Forall (Permutation_sym Hp)) in E2.
    apply first_failure_none_iff in E2. congruence.
  - apply first_failure_none_iff in E1.
    apply (Permutation_Forall Hp) in E1.
    apply first_failure_none_iff in E1. congruence.
  - unfold keep_rows. f_equal. apply filter_ext.
    intros r. now apply row_passes_permutation.
Qed.

(** X5.  The table [apply_filters] returns has the columns of the input
    and, as rows, a selection of the input's rows in their order: no row
    is added, changed or moved, and there are not more rows than before. *)
Theorem apply_filters_selects_rows df conds logic st :
  columns (fst (apply_filters df conds logic st)) = columns df
  /\ (exists keep : list cell -> bool,
        rows (fst (apply_filters df conds logic st)) = filter keep (rows df))
  /\ length (rows (fst (apply_filters df conds logic st)))
     <= length (rows df).
Proof.
  rewrite fst_apply_filters, filtered_spec.
  destruct (first_failure df conds); simpl.
  - split; [reflexivity|]. split; [|lia].
    exists (fun _ => true). now rewrite filter_all.
  - split; [reflexivity|]. split; [eauto|]. apply filter_length_le.
Qed.

(** X6.  Filtering is idempotent: applying the same conditions to the
    table [apply_filters] returned gives that table again. *)
Theorem apply_filters_idempotent df conds logic st st' :
  fst (apply_filters (fst (apply_filters df conds logic st)) conds logic st')
  = fst (apply_filters df conds logic st).
Proof.
  rewrite !fst_apply_filters.
  pose proof (filtered_spec df conds logic) as Hf.
  destruct (first_failure df conds) eqn:E; rewrite Hf.
  - now rewrite filtered_spec, E.
  - rewrite filtered_spec.
    rewrite (first_failure_columns df) by reflexivity.
    rewrite E. unfold keep_rows; simpl. f_equal.
    rewrite (filter_ext _ (row_passes regex_test df conds logic)).
    + apply filter_filter_same.
    + intros r. now apply row_passes_columns.
Qed.

(** X7.  The table [apply_filters] returns does not depend on the order
    in which the conditions are given. *)
Theorem apply_filters_order_irrelevant df conds conds' logic st :
  Permutation conds conds' ->
  fst (apply_filters df conds logic st)
  = fst (apply_filters df conds' logic st).
Proof.
  intros Hp. rewrite !fst_apply_filters. now apply filtered_permutation.
Qed.

(** X8.  With any number of conditions: under AND, further conditions
    never add rows, provided evaluating all of them raises nothing; under
    OR, further conditions never remove rows, provided one of the first
    conditions is on a column of the table. *)
Theorem more_conditions_narrow_and_widen_or df conds more logic :
  (first_failure df (conds ++ more) = None ->
     within (filtered df (conds ++ more) "AND") (filtered df conds "AND"))
  /\ (String.eqb logic "AND" = false -> active df conds <> [] ->
     within (filtered df conds logic) (filtered df (conds ++ more) logic)).
Proof.
  split.
  - intros Hok. destruct (first_failure_app_none _ _ _ Hok) as [Hc _].
    rewrite !filtered_spec, Hok, Hc.
    apply within_keep_rows. intros r. unfold row_passes.
    rewrite active_app.
    destruct (active df conds) as [|c acts]; [reflexivity|].
    simpl. rewrite forallb_app, !andb_true_iff. tauto.
  - intros Hor Hact. rewrite (filtered_spec df (conds ++ more)).
    destruct (first_failure df (conds ++ more)) eqn:E.
    + apply filtered_within.
    + destruct (first_failure_app_none _ _ _ E) as [Hc _].
      rewrite filtered_spec, Hc.
      apply within_keep_rows. intros r. unfold row_passes.
      rewrite active_app, Hor.
      destruct (active df conds) as [|c acts]; [congruence|].
      simpl. rewrite existsb_app, !orb_true_iff. tauto.
Qed.

End MoreFilterFacts.

Lemma apply_filters_order_irrelevant_witness :
  Permutation [("Region", "east"); ("Amt", "1")]
              [("Amt", "1"); ("Region", "east")]
  /\ fst (@apply_filters AsciiHost.host AsciiHost.sales
            [("Region", "east"); ("Amt", "1")] "OR" initial_state)
     = fst (@apply_filters AsciiHost.host AsciiHost.sales
              [("Amt", "1"); ("Region", "east")] "OR" initial_state).
Proof.
  split; [apply perm_swap|].
  exact (@apply_filters_order_irrelevant AsciiHost.host AsciiHost.sales
           _ _ "OR" initial_state (perm_swap _ _ [])).
Defined.

Lemma more_conditions_narrow_and_widen_or_witness :
  @first_failure AsciiHost.host AsciiHost.sales
     ([("Amt", "1")] ++ [("Region", "west"); ("Year", "2020")]) = None
  /\ @within AsciiHost.host
       (filtered AsciiHost.sales
          ([("Amt", "1")] ++ [("Region", "west"); ("Year", "2020")]) "AND")
       (filtered AsciiHost.sales [("Amt", "1")] "AND")
  /\ @within AsciiHost.host
       (filtered AsciiHost.sales [("Amt", "1")] "OR")
       (filtered AsciiHost.sales
          ([("Amt", "1")] ++ [("Region", "west"); ("Year", "2020")]) "OR").
Proof.
  destruct (@more_conditions_narrow_and_widen_or AsciiHost.host
              AsciiHost.sales [("Amt", "1")]
              [("Region", "west"); ("Year", "2020")] "OR") as [Hand Hor].
  split; [reflexivity|]. split.
  - exact (Hand eq_refl).
  - apply Hor; [reflexivity | discriminate].
Defined.

(* ================================================================== *)
(** * Further properties of the session *)

Section SessionFacts.

Context {H : Host}.

Implicit Types (df : DataFrame) (conds : list (string * string)).
Implicit Types (logic file_name : string) (st : SessionState).
Implicit Types (P : io_event -> Prop).

Lemma continues_refl P st : continues P st st.
Proof.
  repeat split.
  - exists []. now rewrite app_nil_r.
  - exists []. now rewrite app_nil_r.
  - lia.
Qed.

Lemma continues_trans P st1 st2 st3 :
  continues P st1 st2 -> continues P st2 st3 -> continues P st1 st3.
Proof.
  intros [[m1 H1] [[e1 [I1 F1]] C1]] [[m2 H2] [[e2 [I2 F2]] C2]].
  repeat split.
  - exists (m1 ++ m2). now rewrite H2, H1, app_assoc.
  - exists (e1 ++ e2). split.
    + now rewrite I2, I1, app_assoc.
    + apply Forall_app. auto.
  - lia.
Qed.

Lemma continues_log_error P msg st : continues P st (log_error msg st).
Proof.
  repeat split; simpl; [eauto | | lia].
  exists []. now rewrite app_nil_r.
Qed.

Lemma continues_show P ev st : continues P st (show ev st).
Proof.
  repeat split; simpl; [| | lia]; exists []; now rewrite app_nil_r.
Qed.

Lemma continues_count_sheet P st : continues P st (count_sheet st).
Proof.
  repeat split; simpl; [| | lia]; exists []; now rewrite app_nil_r.
Qed.

Lemma continues_perform P ev st : P ev -> continues P st (perform ev st).
Proof.
  intros Hev. repeat split; simpl; [| | lia].
  - exists []. now rewrite app_nil_r.
  - exists [ev]. auto.
Qed.


Lemma continues_set_preview_data P p st :
  continues P st (set_preview_data p st).
Proof.
  repeat split; simpl; [| | lia]; exists []; now rewrite app_nil_r.
Qed.

Lemma continues_rename_notice P sheet_name file_name st :
  continues P st (rename_notice sheet_name file_name st).
Proof.
  unfold rename_notice.
  destruct (negb _ || negb _); [apply continues_show | apply continues_refl].
Qed.

Lemma continues_apply_filters P df conds logic st :
  continues P st (snd (apply_filters df conds logic st)).
Proof.
  unfold apply_filters.
  destruct (apply_filters_try df conds logic); simpl;
    [apply continues_log_error | apply continues_refl].
Qed.

Lemma continues_sheet_session P file_name conds logic st
    (sheet : string * DataFrame) :
  continues P st (sheet_session file_name conds logic st sheet).
Proof.
  destruct sheet as [sheet_name df].
  unfold sheet_session, process_sheet.
  eapply continues_trans; [apply (continues_rename_notice P sheet_name file_name)|].
  destruct (empty df); simpl; [apply continues_log_error|].
  pose proof (continues_apply_filters P df conds logic
                (rename_notice sheet_name file_name st)) as Hf.
  destruct (apply_filters df conds logic
              (rename_notice sheet_name file_name st)) as [d st2].
  simpl in Hf. eapply continues_trans; [exact Hf|].
  destruct (empty d); simpl; [apply continues_log_error|].
  eapply continues_trans; [apply continues_count_sheet | apply continues_show].
Qed.

Lemma continues_fold_sheets P file_name conds logic (sheets : Sheets) :
  forall st,
    continues P st (fold_left (sheet_session file_name conds logic) sheets st).
Proof.
  induction sheets as [|sheet sheets IH]; intros st; simpl.
  - apply continues_refl.
  - eapply continues_trans; [apply continues_sheet_session | apply IH].
Qed.

Lemma continues_file_session P file_name conds logic
    (content : FileContent) st :
  P (IoReadExcel file_name) ->
  continues P st (file_session file_name conds logic content st).
Proof.
  intros Hev. unfold file_session.
  eapply continues_trans; [apply (continues_perform P _ st Hev)|].
  destruct content as [e|[|sheet sheets]].
  - apply continues_log_error.
  - apply continues_log_error.
  - apply continues_fold_sheets.
Qed.

Lemma continues_catalog_sheet P file_name (acc : list string * SessionState)
    (sheet : string * DataFrame) :
  continues P (snd acc) (snd (catalog_sheet file_name acc sheet)).
Proof.
  destruct acc as [opts st], sheet as [sheet_name df].
  unfold catalog_sheet. destruct (empty df); simpl;
    [apply continues_log_error | apply continues_refl].
Qed.

Lemma continues_fold_catalog_sheet P file_name (sheets : Sheets) :
  forall acc : list string * SessionState,
    continues P (snd acc) (snd (fold_left (catalog_sheet file_name) sheets acc)).
Proof.
  induction sheets as [|sheet sheets IH]; intros acc; simpl.
  - apply continues_refl.
  - eapply continues_trans; [apply continues_catalog_sheet | apply IH].
Qed.

Lemma continues_catalog_file P (z : ZipFile)
    (acc : list string * SessionState) file_name :
  P (IoOpen file_name) -> P (IoReadExcel file_name) ->
  continues P (snd acc) (snd (catalog_file z acc file_name)).
Proof.
  intros Ho Hr. destruct acc as [opts st]. unfold catalog_file.
  destruct (negb (PyStr.endswith file_name ".xlsx")); simpl;
    [apply continues_log_error|].
  eapply continues_trans; [apply (continues_perform P _ st Ho)|].
  destruct (zopen z file_name) as [e|content]; simpl;
    [apply continues_log_error|].
  eapply continues_trans; [apply (continues_perform P _ _ Hr)|].
  destruct content as [e|[|sheet sheets]]; simpl;
    try apply continues_log_error.
  pose proof (continues_fold_catalog_sheet P file_name (sheet :: sheets)
                (opts, perform (IoReadExcel file_name)
                         (perform (IoOpen file_name) st))) as Hf.
  simpl in Hf.
  destruct (fold_left (catalog_sheet file_name) sheets _) as [opts' st'].
  simpl in Hf.
  destruct opts'; simpl; [|exact Hf].
  eapply continues_trans; [exact Hf | apply continues_log_error].
Qed.

Lemma continues_fold_catalog_file (z : ZipFile) (all files : list string) :
  incl files all ->
  forall acc : list string * SessionState,
    continues (reads_only all) (snd acc)
              (snd (fold_left (catalog_file z) files acc)).
Proof.
  induction files as [|f files IH]; intros Hincl acc; simpl.
  - apply continues_refl.
  - eapply continues_trans.
    + apply (continues_catalog_file (reads_only all) z acc f);
        simpl; apply Hincl; now left.
    + apply IH. intros x Hx. apply Hincl. now right.
Qed.

Lemma continues_get_column_options (files : list string)
    (zip_buffer : raising ZipFile) st :
  continues (reads_only files) st
            (snd (get_column_options files zip_buffer st)).
Proof.
  unfold get_column_options.
  eapply continues_trans;
    [apply (continues_perform (reads_only files) IoZipFile st I)|].
  destruct zip_buffer as [[m|m]|z]; simpl; try apply continues_log_error.
  apply (continues_fold_catalog_file z files files (incl_refl _)
           ([], perform IoZipFile st)).
Qed.

Lemma continues_process_excel_file file_name conds logic (pv : bool)
    (content : FileContent) st P :
  P (IoReadExcel file_name) ->
  continues P st (snd (process_excel_file content file_name conds logic pv st)).
Proof.
  intros Hev. rewrite process_excel_file_spec. simpl.
  now apply continues_file_session.
Qed.

Lemma continues_combine_loop (z : ZipFile) conds logic (all : list string)
    (files : list string) :
  incl files all ->
  forall (acc : list NamedTable) st,
    continues (reads_only all) st
              (snd (combine_loop z files conds logic acc st)).
Proof.
  induction files as [|f files IH]; intros Hincl acc st; simpl.
  - apply continues_refl.
  - assert (Hf : In f all) by (apply Hincl; now left).
    assert (Hrest : incl files all) by (intros x Hx; apply Hincl; now right).
    eapply continues_trans;
      [apply (continues_perform (reads_only all) (IoOpen f) st Hf)|].
    destruct (zopen z f) as [e|content]; simpl; [apply continues_refl|].
    rewrite process_excel_file_spec.
    eapply continues_trans; [|apply (IH Hrest)].
    now apply continues_file_session.
Qed.

Lemma continues_preview_loop (z : ZipFile) conds logic (all : list string)
    (files : list string) :
  incl files all ->
  forall st,
    continues (reads_only all) st
              (snd (preview_loop z files conds logic st)).
Proof.
  induction files as [|f files IH]; intros Hincl st; simpl.
  - apply continues_refl.
  - assert (Hf : In f all) by (apply Hincl; now left).
    assert (Hrest : incl files all) by (intros x Hx; apply Hincl; now right).
    eapply continues_trans;
      [apply (continues_perform (reads_only all) (IoOpen f) st Hf)|].
    destruct (zopen z f) as [e|content]; simpl; [apply continues_refl|].
    rewrite process_excel_file_spec.
    eapply continues_trans; [|apply (IH Hrest)].
    eapply continues_trans; [|apply continues_set_preview_data].
    now apply continues_file_session.
Qed.

(** X9.  [process_excel_file], [get_column_options] and the loops of the
    two buttons only add to the session: the entries already in the error
    log stay, in place, before the new ones; the count of processed sheets
    never goes down; and the only members opened or read are those they
    were given. *)
Theorem session_only_grows :
  (forall (content : FileContent) file_name conds logic (pv : bool) st,
      continues (reads_only [file_name]) st
        (snd (process_excel_file content file_name conds logic pv st)))
  /\ (forall (files : list string) (zip_buffer : raising ZipFile) st,
      continues (reads_only files) st
        (snd (get_column_options files zip_buffer st)))
  /\ (forall (z : ZipFile) (files : list string) conds logic st,
      continues (reads_only files) st
        (snd (preview_loop z files conds logic st)))
  /\ (forall (z : ZipFile) (files : list string) conds logic
             (all_sheets : list NamedTable) st,
      continues (reads_only files) st
        (snd (combine_loop z files conds logic all_sheets st))).
Proof.
  split; [|split; [|split]].
  - intros. apply continues_process_excel_file. simpl. now left.
  - intros. apply continues_get_column_options.
  - intros. apply continues_preview_loop. apply incl_refl.
  - intros. apply continues_combine_loop. apply incl_refl.
Qed.

End SessionFacts.

(* ================================================================== *)
(** * Further properties of the combiner *)

Section MoreCombinerFacts.

Context {H : Host}.

Implicit Types (df : DataFrame) (conds : list (string * string)).
Implicit Types (logic file_name : string) (st : SessionState).

Lemma apply_filters_log_length df conds logic st :
  length (error_sheets st)
  <= length (error_sheets (snd (apply_filters df conds logic st))).
Proof.
  unfold apply_filters.
  destruct (apply_filters_try df conds logic); simpl; [|lia].
  rewrite length_app. simpl. lia.
Qed.

(** One sheet: it gives an entry or the log gets longer. *)
Lemma sheet_session_accounts file_name conds logic st
    (sheet : string * DataFrame) :
  let entries := keep_some (output_entry conds logic)
                           (sheets_of_file file_name [sheet]) in
  length entries <= 1
  /\ 1 + length (error_sheets st)
     <= length entries
        + length (error_sheets (sheet_session file_name conds logic st sheet)).
Proof.
  destruct sheet as [sheet_name df]. cbv zeta.
  unfold sheet_session, process_sheet, sheets_of_file, output_entry; simpl.
  destruct (rename_notice_session sheet_name file_name st) as [_ [He _]].
  destruct (empty df); simpl.
  - rewrite length_app, He. simpl. lia.
  - pose proof (apply_filters_log_length df conds logic
                  (rename_notice sheet_name file_name st)) as Hl.
    pose proof (fst_apply_filters df conds logic
                  (rename_notice sheet_name file_name st)) as Hd.
    destruct (apply_filters df conds logic
                (rename_notice sheet_name file_name st)) as [d st2].
    simpl in Hl, Hd. subst d. rewrite He in Hl.
    destruct (empty (filtered df conds logic)); simpl.
    + rewrite length_app. simpl. lia.
    + lia.
Qed.

Lemma fold_sheets_accounts file_name conds logic (sheets : Sheets) :
  forall st,
    let entries := keep_some (output_entry conds logic)
                             (sheets_of_file file_name sheets) in
    length entries <= length sheets
    /\ length sheets + length (error_sheets st)
       <= length entries
          + length (error_sheets
                      (fold_left (sheet_session file_name conds logic)
                                 sheets st)).
Proof.
  induction sheets as [|sheet sheets IH]; intros st; cbv zeta.
  - simpl. lia.
  - change (sheets_of_file file_name (sheet :: sheets))
      with (sheets_of_file file_name [sheet]
              ++ sheets_of_file file_name sheets).
    rewrite keep_some_app, length_app.
    destruct (sheet_session_accounts file_name conds logic st sheet)
      as [H1 H2].
    destruct (IH (sheet_session file_name conds logic st sheet)) as [H3 H4].
    cbn [fold_left length]. lia.
Qed.

(** X10.  No sheet is dropped silently.  A workbook gives at most one
    output entry per sheet, and every sheet that gives none adds at least
    one entry to the error log; so does a workbook that cannot be read or
    has no sheet. *)
Theorem every_sheet_is_output_or_logged (content : FileContent)
    file_name conds logic (pv : bool) st :
  let result := process_excel_file content file_name conds logic pv st in
  length (fst (fst result)) <= sheet_count content
  /\ sheet_count content + length (error_sheets st)
     <= length (fst (fst result)) + length (error_sheets (snd result))
  /\ (sheet_count content = 0 ->
      fst (fst result) = []
      /\ length (error_sheets (snd result)) = S (length (error_sheets st))).
Proof.
  cbv zeta. rewrite process_excel_file_spec. cbn [fst snd].
  unfold file_entries, file_session, sheet_count.
  destruct content as [e|[|sheet sheets]].
  - simpl. rewrite length_app. simpl. repeat split; lia.
  - simpl. rewrite length_app. simpl. repeat split; lia.
  - destruct (fold_sheets_accounts file_name conds logic (sheet :: sheets)
                (perform (IoReadExcel file_name) st)) as [H1 H2].
    cbv zeta in H1, H2.
    split; [exact H1|]. split; [exact H2|].
    simpl. discriminate.
Qed.

Lemma combine_loop_result (z : ZipFile) conds logic (files : list string) :
  forall (acc : list NamedTable) st,
    fst (combine_loop z files conds logic acc st)
    = match first_unreadable z files with
      | Some e => inl e
      | None => inr (acc ++ keep_some (output_entry conds logic)
                                      (sheets_in_order z files))
      end.
Proof.
  induction files as [|f files IH]; intros acc st; simpl.
  - now rewrite app_nil_r.
  - unfold sheets_in_order, sheets_of in *; simpl.
    destruct (zopen z f) as [e|content]; [reflexivity|].
    rewrite process_excel_file_spec, IH.
    destruct (first_unreadable z files); [reflexivity|].
    rewrite keep_some_app, app_assoc. unfold file_entries.
    now destruct content.
Qed.

(** X11.  The loop of the combine button stops at the first member that
    cannot be opened, with the exception of that member and without a
    list; when every member opens, it returns the output entries of all
    sheets in order.  A workbook that opens but cannot be parsed does not
    stop the loop. *)
Theorem combine_loop_outcome (z : ZipFile) conds logic
    (files : list string) st :
  fst (combine_loop z files conds logic [] st)
  = match first_unreadable z files with
    | Some e => inl e
    | None => inr (keep_some (output_entry conds logic)
                             (sheets_in_order z files))
    end.
Proof. apply combine_loop_result. Qed.

Lemma preview_data_sheet_session file_name conds logic st
    (sheet : string * DataFrame) :
  preview_data (sheet_session file_name conds logic st sheet) = preview_data st.
Proof.
  destruct sheet as [sheet_name df].
  unfold sheet_session, process_sheet, rename_notice.
  destruct (negb _ || negb _); destruct (empty df); simpl; try reflexivity;
    unfold apply_filters;
    destruct (apply_filters_try df conds logic) as [e|d]; simpl;
    try (destruct (empty df)); try (destruct (empty d)); reflexivity.
Qed.

Lemma preview_data_file_session file_name conds logic
    (content : FileContent) st :
  preview_data (file_session file_name conds logic content st) = preview_data st.
Proof.
  unfold file_session.
  destruct content as [e|[|sheet sheets]]; try reflexivity.
  assert (Hfold : forall l st0,
             preview_data (fold_left (sheet_session file_name conds logic) l st0)
             = preview_data st0).
  { induction l as [|x l IH]; intros st0; simpl; [reflexivity|].
    now rewrite IH, preview_data_sheet_session. }
  now rewrite Hfold.
Qed.

Lemma preview_of_app (a b : list NamedTable) :
  preview_of (a ++ b) = preview_of a ++ preview_of b.
Proof. apply map_app. Qed.

Lemma preview_loop_result (z : ZipFile) conds logic (files : list string) :
  first_unreadable z files = None ->
  forall st (shown : list NamedTable),
    preview_data st = Some shown ->
    fst (preview_loop z files conds logic st) = inr tt
    /\ preview_data (snd (preview_loop z files conds logic st))
       = Some (shown ++ preview_of (keep_some (output_entry conds logic)
                                              (sheets_in_order z files))).
Proof.
  induction files as [|f files IH]; intros Hok st shown Hshown; simpl in *.
  - now rewrite app_nil_r.
  - unfold sheets_in_order, sheets_of in *; simpl.
    destruct (zopen z f) as [e|content]; [discriminate|].
    rewrite process_excel_file_spec.
    rewrite preview_data_file_session. simpl. rewrite Hshown.
    destruct (IH Hok
                (set_preview_data
                   (Some (shown ++ preview_of (file_entries f conds logic content)))
                   (file_session f conds logic content (perform (IoOpen f) st)))
                _ eq_refl) as [H1 H2].
    split; [exact H1|]. rewrite H2.
    rewrite keep_some_app, preview_of_app, app_assoc.
    unfold file_entries. now destruct content.
Qed.

(** X12.  The preview shows what the combination will contain.  When
    every member opens, the loop of the preview button leaves as preview
    data, in the same order and under the same names, the first five rows
    of exactly the tables that the loop of the combine button returns. *)
Theorem preview_matches_combination (z : ZipFile) conds logic
    (files : list string) st st' :
  first_unreadable z files = None ->
  exists all_sheets,
    fst (combine_loop z files conds logic [] st') = inr all_sheets
    /\ fst (preview_loop z files conds logic (set_preview_data (Some []) st))
       = inr tt
    /\ preview_data
         (snd (preview_loop z files conds logic
                            (set_preview_data (Some []) st)))
       = Some (map (fun '(name, df) => (name, head 5 df)) all_sheets).
Proof.
  intros Hok.
  exists (keep_some (output_entry conds logic) (sheets_in_order z files)).
  split.
  - now rewrite combine_loop_result, Hok.
  - destruct (preview_loop_result z conds logic files Hok
                (set_preview_data (Some []) st) [] eq_refl) as [H1 H2].
    split; [exact H1 | exact H2].
Qed.

(** X13.  Every table of the preview list of [process_excel_file] is
    non-empty and has at most five rows. *)
Theorem preview_tables_are_small (content : FileContent) file_name conds
    logic st (name : string) (d : DataFrame) :
  In (name, d)
     (snd (fst (process_excel_file content file_name conds logic true st))) ->
  empty d = false /\ 1 <= length (rows d) <= 5.
Proof.
  rewrite process_excel_file_spec. cbn [fst snd].
  unfold preview_of. rewrite in_map_iff.
  intros [[n df] [Heq Hin]]. inversion Heq; subst.
  assert (Hne : empty df = false).
  { unfold file_entries in Hin.
    destruct content as [e|sheets]; [destruct Hin|].
    apply In_keep_some in Hin.
    destruct Hin as [[[f s] df'] [_ Hentry]].
    unfold output_entry in Hentry.
    destruct (empty df'); [discriminate|].
    destruct (empty (filtered df' conds logic)) eqn:E; [discriminate|].
    inversion Hentry; subst. exact E. }
  unfold empty in *. unfold head; cbn [columns rows].
  destruct (columns df); [discriminate|].
  destruct (rows df) as [|r rs]; [discriminate|].
  split; [reflexivity|].
  split; [simpl; lia | apply firstn_le_length].
Qed.

End MoreCombinerFacts.

Lemma every_sheet_is_output_or_logged_witness :
  sheet_count (inl (PyError "File is not a zip file")
               : @FileContent AsciiHost.host) = 0
  /\ fst (fst (@process_excel_file AsciiHost.host
                 (inl (PyError "File is not a zip file"))
                 "Sales.xlsx" [] "AND" false initial_state)) = []
  /\ length (error_sheets
               (snd (@process_excel_file AsciiHost.host
                       (inl (PyError "File is not a zip file"))
                       "Sales.xlsx" [] "AND" false initial_state))) = 1.
Proof.
  split; [reflexivity|].
  exact (proj2 (proj2 (@every_sheet_is_output_or_logged AsciiHost.host
                         (inl (PyError "File is not a zip file"))
                         "Sales.xlsx" [] "AND" false initial_state))
               eq_refl).
Defined.

Lemma preview_matches_combination_witness :
  @first_unreadable AsciiHost.host AsciiHost.archive
     ["Sales.xlsx"; "Stock.xlsx"] = None
  /\ preview_data
       (snd (@preview_loop AsciiHost.host AsciiHost.archive
               ["Sales.xlsx"; "Stock.xlsx"] [("Region", "east")] "AND"
               (set_preview_data (Some []) initial_state)))
     = Some [("Q1_Sales", AsciiHost.east_only);
             ("Q1_Stock", AsciiHost.east_only);
             ("Q2_Stock", AsciiHost.east_only)].
Proof.
  split; [reflexivity|].
  destruct (@preview_matches_combination AsciiHost.host AsciiHost.archive
              [("Region", "east")] "AND" ["Sales.xlsx"; "Stock.xlsx"]
              initial_state initial_state eq_refl)
    as [all_sheets [Hc [_ Hp]]].
  rewrite Hp. vm_compute in Hc. inversion Hc. reflexivity.
Defined.

Lemma preview_tables_are_small_witness :
  In ("Q1_Sales", AsciiHost.east_only)
     (snd (fst (@process_excel_file AsciiHost.host
                  (inr [("Q1", AsciiHost.sales)]) "Sales.xlsx"
                  [("Region", "east")] "AND" true initial_state)))
  /\ @empty AsciiHost.host AsciiHost.east_only = false.
Proof.
  assert (Hin : In ("Q1_Sales", AsciiHost.east_only)
     (snd (fst (@process_excel_file AsciiHost.host
                  (inr [("Q1", AsciiHost.sales)]) "Sales.xlsx"
                  [("Region", "east")] "AND" true initial_state)))).
  { vm_compute. now left. }
  split; [exact Hin|].
  exact (proj1 (@preview_tables_are_small AsciiHost.host _ _ _ _ _ _ _ Hin)).
Defined.

(* ================================================================== *)
(** * The column catalog *)

Module OrderFacts.

Lemma ltb_lt (a b : string) :
  String.ltb a b = true <-> OrderedTypeEx.String_as_OT.lt a b.
Proof.
  rewrite <- OrderedTypeEx.String_as_OT.cmp_lt.
  unfold String.ltb, OrderedTypeEx.String_as_OT.cmp.
  destruct (String.compare a b); split; congruence.
Qed.




End OrderFacts.

Section CatalogFacts.

Context {H : Host}.













(** [get_column_options] counts no sheet. *)
Lemma count_fold_catalog_sheet file_name (sheets : Sheets) :
  forall acc : list string * SessionState,
    processed_sheets (snd (fold_left (catalog_sheet file_name) sheets acc))
    = processed_sheets (snd acc).
Proof.
  induction sheets as [|[s df] sheets IH]; intros [opts st]; simpl;
    [reflexivity|].
  destruct (empty df); now rewrite IH.
Qed.

Lemma count_catalog_file (z : ZipFile) (acc : list string * SessionState)
    file_name :
  processed_sheets (snd (catalog_file z acc file_name))
  = processed_sheets (snd acc).
Proof.
  destruct acc as [opts st]. unfold catalog_file.
  destruct (negb _); [reflexivity|].
  destruct (zopen z file_name) as [e|[e|[|sheet sheets]]]; try reflexivity.
  pose proof (count_fold_catalog_sheet file_name (sheet :: sheets)
                (opts, perform (IoReadExcel file_name)
                         (perform (IoOpen file_name) st))) as Hf.
  cbn [fold_left] in Hf. cbn [fold_left].
  destruct (fold_left (catalog_sheet file_name) sheets _) as [opts' st'].
  simpl in Hf. destruct opts'; simpl; exact Hf.
Qed.

Lemma count_get_column_options (files : list string)
    (zip_buffer : raising ZipFile) (st : SessionState) :
  processed_sheets (snd (get_column_options files zip_buffer st))
  = processed_sheets st.
Proof.
  unfold get_column_options.
  destruct zip_buffer as [[m|m]|z]; try reflexivity.
  assert (Hfold : forall acc,
             processed_sheets (snd (fold_left (catalog_file z) files acc))
             = processed_sheets (snd acc)).
  { induction files as [|f files IH]; intros acc; simpl; [reflexivity|].
    now rewrite IH, count_catalog_file. }
  now rewrite Hfold.
Qed.

End CatalogFacts.

(* ================================================================== *)
(** * The name of the download *)

Module DownloadFacts.
Import PyStr.

Lemma slice_from_length_append (a b : string) :
  slice_from (String.length a) (a ++ b) = b.
Proof. induction a as [|c a IH]; simpl; [now destruct b | exact IH]. Qed.

Lemma endswith_append (s suffix : string) :
  endswith (s ++ suffix) suffix = true.
Proof.
  unfold endswith. rewrite NameFacts.length_append.
  replace (String.length s + String.length suffix - String.length suffix)
    with (String.length s) by lia.
  rewrite slice_from_length_append, String.eqb_refl, andb_true_r.
  apply Nat.leb_le. lia.
Qed.

End DownloadFacts.

(** X15.  The name of the download always ends in [.xlsx]: a name that
    already does is kept, any other name, the empty one included, gets the
    suffix appended.  Doing it twice changes nothing more. *)
Theorem output_file_name_has_suffix (output_filename : string) :
  PyStr.endswith (output_file_name output_filename) ".xlsx" = true
  /\ output_file_name (output_file_name output_filename)
     = output_file_name output_filename
  /\ (output_file_name output_filename = output_filename
      \/ output_file_name output_filename
         = (output_filename ++ ".xlsx")%string).
Proof.
  assert (Hend : PyStr.endswith (output_file_name output_filename) ".xlsx"
                 = true).
  { unfold output_file_name.
    destruct (PyStr.endswith output_filename ".xlsx") eqn:E; [exact E|].
    apply DownloadFacts.endswith_append. }
  split; [exact Hend|]. split.
  - unfold output_file_name at 1. now rewrite Hend.
  - unfold output_file_name.
    destruct (PyStr.endswith output_filename ".xlsx"); auto.
Qed.

(* ================================================================== *)
(** * The whole run *)

Section RunMoreFacts.

Context {H : Host}.

Implicit Types (df : DataFrame) (conds : list (string * string)).
Implicit Types (logic file_name : string) (st : SessionState).

Lemma preview_loop_fst (z : ZipFile) conds logic (files : list string) :
  forall st,
    fst (preview_loop z files conds logic st)
    = match first_unreadable z files with
      | Some e => inl e
      | None => inr tt
      end.
Proof.
  induction files as [|f files IH]; intros st; simpl; [reflexivity|].
  destruct (zopen z f) as [e|content]; [reflexivity|].
  rewrite process_excel_file_spec. apply IH.
Qed.

Lemma count_sheet_session file_name conds logic st
    (sheet : string * DataFrame) :
  processed_sheets (sheet_session file_name conds logic st sheet)
  = processed_sheets st
    + length (keep_some (output_entry conds logic)
                        (sheets_of_file file_name [sheet])).
Proof.
  destruct sheet as [s d].
  unfold sheet_session, process_sheet, sheets_of_file, output_entry; simpl.
  destruct (rename_notice_session s file_name st) as [Hn _].
  destruct (empty d); simpl; [lia|].
  pose proof (apply_filters_session d conds logic
                (rename_notice s file_name st)) as [Hc _].
  pose proof (fst_apply_filters d conds logic
                (rename_notice s file_name st)) as Hd.
  destruct (apply_filters d conds logic (rename_notice s file_name st))
    as [d' st2].
  simpl in Hc, Hd. subst d'.
  destruct (empty (filtered d conds logic)); simpl; lia.
Qed.

Lemma count_file_session file_name conds logic (content : FileContent) st :
  processed_sheets (file_session file_name conds logic content st)
  = processed_sheets st + length (file_entries file_name conds logic content).
Proof.
  unfold file_session, file_entries.
  destruct content as [e|sheets]; simpl; [lia|].
  assert (Hfold : forall st0,
             processed_sheets
               (fold_left (sheet_session file_name conds logic) sheets st0)
             = processed_sheets st0
               + length (keep_some (output_entry conds logic)
                                   (sheets_of_file file_name sheets))).
  { induction sheets as [|sheet sheets IH]; intros st0; [simpl; lia|].
    cbn [fold_left]. rewrite IH, count_sheet_session.
    change (sheets_of_file file_name (sheet :: sheets))
      with (sheets_of_file file_name [sheet]
              ++ sheets_of_file file_name sheets).
    rewrite keep_some_app, length_app. lia. }
  destruct sheets as [|sheet sheets]; [simpl; lia|].
  now rewrite Hfold.
Qed.

Lemma count_combine_loop (z : ZipFile) conds logic (files : list string) :
  forall (acc out : list NamedTable) st,
    fst (combine_loop z files conds logic acc st) = inr out ->
    processed_sheets (snd (combine_loop z files conds logic acc st))
    + length acc
    = processed_sheets st + length out.
Proof.
  induction files as [|f files IH]; intros acc out st; simpl.
  - intros Hout. inversion Hout. lia.
  - destruct (zopen z f) as [e|content]; [discriminate|].
    rewrite process_excel_file_spec. intros Hout.
    apply IH in Hout. rewrite length_app in Hout.
    rewrite count_file_session in Hout. simpl in Hout. lia.
Qed.

Lemma display_preview_session (st : SessionState) P :
  processed_sheets (display_preview st) = processed_sheets st
  /\ continues P st (display_preview st).
Proof.
  unfold display_preview.
  destruct (preview_data st) as [[|x l]|];
    try (split; [reflexivity | apply continues_refl]).
  assert (Hfold : forall l0 st0,
             processed_sheets
               (fold_left (fun st1 '(sheet_name, df_preview) =>
                             show (UiDataframe df_preview)
                                  (show (UiWrite ("**" ++ sheet_name ++ "**")) st1))
                          l0 st0) = processed_sheets st0
             /\ continues P st0
                  (fold_left (fun st1 '(sheet_name, df_preview) =>
                             show (UiDataframe df_preview)
                                  (show (UiWrite ("**" ++ sheet_name ++ "**")) st1))
                          l0 st0)).
  { induction l0 as [|[n d] l0 IH]; intros st0; simpl.
    - split; [reflexivity | apply continues_refl].
    - destruct (IH (show (UiDataframe d)
                         (show (UiWrite ("**" ++ n ++ "**")) st0)))
        as [Hc Hk].
      split; [exact Hc|].
      eapply continues_trans; [|exact Hk].
      eapply continues_trans; apply continues_show. }
  destruct (Hfold (x :: l)
              (show (UiSubheader "Data Preview (First 5 Rows per Sheet)") st))
    as [Hc Hk].
  split; [exact Hc|].
  eapply continues_trans; [apply continues_show | exact Hk].
Qed.


(** X16.  What a run hands to the spreadsheet writer.  There is a list
    only when the archive is within the size limit and opens, holds at
    least one name ending in [.xlsx], the combine button is pressed and
    every such member opens; the list is then made of the output entries
    of all sheets of these members, in order, for the conditions of the
    filled filter slots. *)
Theorem run_output (up : UploadedFile) (w : Widgets) st :
  snd (run (Some up) w st)
  = if too_large up then None
    else match upload_zip up with
         | inl _ => None
         | inr z =>
             let excel_files :=
               filter (fun f => PyStr.endswith f ".xlsx") (namelist z) in
             match excel_files with
             | [] => None
             | _ =>
                 if combine_button w then
                   match first_unreadable z excel_files with
                   | Some _ => None
                   | None =>
                       Some (keep_some
                               (output_entry (conditions_of (filter_slots w))
                                             (filter_logic w))
                               (sheets_in_order z excel_files))
                   end
                 else None
             end
         end.
Proof.
  unfold run.
  destruct (too_large up); [reflexivity|].
  destruct (upload_zip up) as [e|z]; [reflexivity|].
  cbv zeta.
  destruct (filter (fun f => PyStr.endswith f ".xlsx") (namelist z))
    as [|f files] eqn:Hfiles; [reflexivity|].
  destruct (get_column_options (f :: files) (inr z) _) as [opts st1].
  set (st2 := show (UiSubheader "Filter Conditions") _).
  destruct (preview_button w).
  - pose proof (preview_loop_fst z (conditions_of (filter_slots w))
                  (filter_logic w) (f :: files)
                  (set_preview_data (Some []) st2)) as Hp.
    destruct (preview_loop z (f :: files) _ _ _) as [previewed st3].
    cbn [fst] in Hp. subst previewed.
    destruct (first_unreadable z (f :: files)) as [e|] eqn:Hu.
    + now destruct (combine_button w).
    + destruct (combine_button w); [|reflexivity].
      pose proof (combine_loop_result z (conditions_of (filter_slots w))
                    (filter_logic w) (f :: files) []
                    (show (UiSubheader "Output Settings")
                          (display_preview st3))) as Hc.
      rewrite Hu in Hc.
      destruct (combine_loop z (f :: files) _ _ [] _) as [[e|out] st4];
        cbn [fst app] in Hc; [discriminate|].
      inversion Hc. reflexivity.
  - destruct (combine_button w); [|reflexivity].
    pose proof (combine_loop_result z (conditions_of (filter_slots w))
                  (filter_logic w) (f :: files) []
                  (show (UiSubheader "Output Settings")
                        (display_preview st2))) as Hc.
    destruct (first_unreadable z (f :: files)) as [e0|];
      destruct (combine_loop z (f :: files) _ _ [] _) as [[e|out] st4];
      cbn [fst app] in Hc; try discriminate; [reflexivity|].
    inversion Hc. reflexivity.
Qed.

End RunMoreFacts.

Section RunTheorems.

Context {H : Host}.

Implicit Types (conds : list (string * string)) (st : SessionState).

Lemma keep_some_ext {A B : Type} (f g : A -> option B) (l : list A) :
  (forall x, f x = g x) -> keep_some f l = keep_some g l.
Proof.
  intros Hfg. induction l as [|x l IH]; simpl; [reflexivity|].
  now rewrite Hfg, IH.
Qed.

Lemma conditions_of_unset (slots : list (string * string)) :
  (forall slot, In slot slots -> fst slot = "None" \/ snd slot = "") ->
  conditions_of slots = [].
Proof.
  unfold conditions_of.
  induction slots as [|[column value] slots IH]; intros Hall; simpl;
    [reflexivity|].
  rewrite IH by (intros slot Hin; apply Hall; now right).
  destruct (Hall (column, value) (or_introl eq_refl)) as [Hc|Hv];
    simpl in *; subst.
  - reflexivity.
  - now rewrite andb_false_r.
Qed.

(** X17.  In a run in which only the combine button is pressed, the count
    of processed sheets that is reported equals the number of tables
    handed to the writer. *)
Theorem run_counts_output_entries (up : UploadedFile) (w : Widgets) st
    (all_sheets : list NamedTable) :
  preview_button w = false ->
  snd (run (Some up) w st) = Some all_sheets ->
  processed_sheets (fst (run (Some up) w st)) = length all_sheets.
Proof.
  unfold run. intros Hpv.
  destruct (too_large up); [discriminate|].
  destruct (upload_zip up) as [e|z]; [discriminate|].
  cbv zeta.
  destruct (filter (fun f => PyStr.endswith f ".xlsx") (namelist z))
    as [|f files]; [discriminate|].
  pose proof (count_get_column_options (f :: files) (inr z)
                (perform IoZipFile (reset_run st))) as Hg.
  destruct (get_column_options (f :: files) (inr z) _) as [opts st1].
  cbn [snd] in Hg. simpl in Hg.
  rewrite Hpv.
  set (st2 := show (UiSubheader "Filter Conditions") _).
  assert (H2 : processed_sheets st2 = 0)
    by (subst st2; destruct opts; simpl; exact Hg).
  destruct (combine_button w); [|discriminate].
  set (st3 := show (UiSubheader "Output Settings") (display_preview st2)).
  assert (H3 : processed_sheets st3 = 0).
  { subst st3. simpl.
    now rewrite (proj1 (display_preview_session st2 (fun _ => True))). }
  pose proof (count_combine_loop z (conditions_of (filter_slots w))
                (filter_logic w) (f :: files) [] all_sheets st3) as Hc.
  destruct (combine_loop z (f :: files) _ _ [] st3) as [[e|out] st4];
    cbn [fst snd] in *; [discriminate|].
  intros Hout. inversion Hout; subst out.
  specialize (Hc eq_refl). rewrite H3 in Hc. cbn [length] in Hc. lia.
Qed.



(** X19.  When every filter slot is unset (no column chosen, or an empty
    value) there is no condition, and the loop of the combine button
    returns every non-empty sheet whole, under its output name. *)
Theorem unset_slots_filter_nothing (slots : list (string * string))
    (z : ZipFile) (files : list string) (logic : string) st :
  (forall slot, In slot slots -> fst slot = "None" \/ snd slot = "") ->
  conditions_of slots = []
  /\ fst (combine_loop z files (conditions_of slots) logic [] st)
     = match first_unreadable z files with
       | Some e => inl e
       | None =>
           inr (keep_some
                  (fun '(file_name, sheet_name, df) =>
                     if empty df then None
                     else Some (new_sheet_name sheet_name file_name, df))
                  (sheets_in_order z files))
       end.
Proof.
  intros Hunset. pose proof (conditions_of_unset slots Hunset) as Hnone.
  split; [exact Hnone|].
  rewrite Hnone, combine_loop_result.
  destruct (first_unreadable z files); [reflexivity|].
  cbn [app]. f_equal. apply keep_some_ext.
  intros [[f s] df]. unfold output_entry.
  change (filtered df [] logic) with df.
  now destruct (empty df).
Qed.

End RunTheorems.

Lemma run_counts_output_entries_witness :
  preview_button AsciiHost.widgets = false
  /\ processed_sheets
       (fst (@run AsciiHost.host (Some (AsciiHost.upload 1000))
                  AsciiHost.widgets initial_state)) = 3.
Proof.
  split; [reflexivity|].
  exact (@run_counts_output_entries AsciiHost.host (AsciiHost.upload 1000)
           AsciiHost.widgets initial_state
           [("Q1_Sales", AsciiHost.east_only);
            ("Q1_Stock", AsciiHost.east_only);
            ("Q2_Stock", AsciiHost.east_only)]
           eq_refl eq_refl).
Defined.

Lemma unset_slots_filter_nothing_witness :
  (forall slot, In slot [("None", "east"); ("Region", "")] ->
                fst slot = "None" \/ snd slot = "")
  /\ fst (@combine_loop AsciiHost.host AsciiHost.archive ["Sales.xlsx"]
            (conditions_of [("None", "east"); ("Region", "")]) "AND" []
            initial_state)
     = inr [("Q1_Sales", AsciiHost.sales)].
Proof.
  assert (Hunset : forall slot,
             In slot [("None", "east"); ("Region", "")] ->
             fst slot = "None" \/ snd slot = "").
  { intros slot [<-|[<-|[]]]; [now left | now right]. }
  split; [exact Hunset|].
  rewrite (proj2 (@unset_slots_filter_nothing AsciiHost.host _
                    AsciiHost.archive ["Sales.xlsx"] "AND" initial_state
                    Hunset)).
  reflexivity.
Defined.

